(** * Password-Validator: the rule engine of [password_validator.py] and the
      checklist and strength meter of [app.py]

    A Python [str] is a sequence of Unicode code points; the validator only
    looks at code points (regular-expression character classes, [str.count],
    [len], substring tests), so a password is modelled as a list of code
    points.  The Unicode character database of the Python runtime is not part
    of the repository: it is the parameter [Unicode] below, and the few facts
    about it that the theorems use are collected in [UnicodeLaws]. *)

From Stdlib Require Import NArith String Ascii List Bool Lia.
From stdpp Require Import base decidable countable list gmap.

Open Scope nat_scope.

(** ** Strings *)

Definition codepoint := N.
Definition str := list codepoint.

Definition ord (a : ascii) : codepoint := N_of_ascii a.

(** The code points of an ASCII literal of the source. *)
Definition lit (s : string) : str := map ord (list_ascii_of_string s).

(** The double quote, U+0022. *)
Definition dquote : codepoint := 34%N.

(** [len(s) // 2] *)
Definition half_len (s : str) : nat := length s / 2.

(** [s.count(c)] for a one-character string [c]. *)
Definition count (s : str) (c : codepoint) : nat := count_occ N.eq_dec s c.

(** [s.startswith(pat)] and [pat in s] (contiguous substring). *)
Fixpoint startswith (pat s : str) : bool :=
  match pat, s with
  | [], _ => true
  | _ :: _, [] => false
  | a :: pat', b :: s' => (a =? b)%N && startswith pat' s'
  end.

Fixpoint contains (pat s : str) : bool :=
  startswith pat s ||
  match s with
  | [] => false
  | _ :: s' => contains pat s'
  end.

(** ** Regular expressions

    Every pattern of the source is a single character class, so [re.search]
    scans for the leftmost code point of the class; the match object is
    modelled by the matched code point, [None] is Python's [None]. *)

Definition re_search (class : codepoint -> bool) (s : str) : option codepoint :=
  List.find class s.

(** Truth value of [re.search(...)]: a match object is true, [None] false. *)
Definition truthy {A} (m : option A) : bool :=
  match m with Some _ => true | None => false end.

(** A range [lo-hi] inside a character class. *)
Definition in_range (lo hi : ascii) (c : codepoint) : bool :=
  (ord lo <=? c)%N && (c <=? ord hi)%N.

(** A character class that lists its members; also the test [c in s] for a
    one-character [c]. *)
Definition in_chars (members : str) (c : codepoint) : bool :=
  existsb (N.eqb c) members.

(** [[A-Z]], [[a-z]], [[A-Za-z]] *)
Definition class_upper : codepoint -> bool := in_range "A" "Z".
Definition class_lower : codepoint -> bool := in_range "a" "z".
Definition class_letter (c : codepoint) : bool :=
  in_range "A" "Z" c || in_range "a" "z" c.

(** The members of the symbol class of the source's patterns, in the order
    written there; the backslash-escaped quote is the double quote. *)
Definition symbol_members : str :=
  lit "!@#$%^&*(),.?" ++ [dquote] ++ lit ":{}|<>".
Definition class_symbol : codepoint -> bool := in_chars symbol_members.

(** ** The Unicode database of the runtime

    [isupper], [islower], [isdigit], [isspace] are the [str] methods on a
    one-character string.  [isdecimal] is general category Nd, which is what
    [\d] matches in a [str] pattern; [\s] in a [str] pattern matches the
    characters for which [str.isspace] holds.  [lower] is [str.lower], a
    function of the whole string (it may change the length). *)

Class Unicode := {
  isupper : codepoint -> bool;
  islower : codepoint -> bool;
  isdigit : codepoint -> bool;
  isdecimal : codepoint -> bool;
  isspace : codepoint -> bool;
  lower : str -> str
}.

Definition is_ascii (c : codepoint) : Prop := (c < 128)%N.

(** What the theorems assume of the database: its ASCII block, and that a
    decimal digit is a digit. *)
Record UnicodeLaws (U : Unicode) : Prop := {
  ascii_isupper : forall c, is_ascii c -> isupper c = in_range "A" "Z" c;
  ascii_islower : forall c, is_ascii c -> islower c = in_range "a" "z" c;
  ascii_isdigit : forall c, is_ascii c -> isdigit c = in_range "0" "9" c;
  ascii_isdecimal : forall c, is_ascii c -> isdecimal c = in_range "0" "9" c;
  decimal_isdigit : forall c, isdecimal c = true -> isdigit c = true
}.

(** ** password_validator.py *)

Definition COMMON_PASSWORDS : gset str :=
  {[ lit "password"; lit "123456"; lit "qwerty";
     lit "letmein"; lit "admin"; lit "iloveyou" ]}.

(** Iterates over [set(password)]; the order of [elements] is as arbitrary
    as the iteration order of a Python set. *)
Definition has_excessive_repetition (password : str) : bool :=
  existsb (fun char => half_len password <? count password char)
          (elements (list_to_set password : gset codepoint)).

Definition patterns : list str :=
  [lit "qwerty"; lit "asdfgh"; lit "zxcvbn"; lit "12345"; lit "password"].

Definition ambiguous_groups : list str := [lit "l1I"; lit "O0o"].

Definition has_ambiguous_characters (password : str) : bool :=
  existsb (fun group =>
             half_len password <? list_sum (map (count password) group))
          ambiguous_groups.

Section Validator.
Context {U : Unicode}.

Definition has_keyboard_pattern (password : str) : bool :=
  existsb (fun pat => contains pat (lower password)) patterns.

Definition looks_human_like (password : str) : bool :=
  let has_letter := truthy (re_search class_letter password) in
  let has_digit := truthy (re_search isdecimal password) in
  let has_symbol := truthy (re_search class_symbol password) in
  has_letter && has_digit && has_symbol.

Definition is_valid_password (password : str) : bool :=
  if bool_decide (password ∈ COMMON_PASSWORDS) then false else
  if length password <? 8 then false else
  if truthy (re_search isspace password) then false else
  if negb (truthy (re_search class_upper password)) then false else
  if negb (truthy (re_search class_lower password)) then false else
  if negb (truthy (re_search isdecimal password)) then false else
  if negb (truthy (re_search class_symbol password)) then false else
  if has_excessive_repetition password then false else
  if has_keyboard_pattern password then false else
  if has_ambiguous_characters password then false else
  if negb (looks_human_like password) then false else
  true.

(** The eleven rules, each the condition under which the corresponding [if]
    of [is_valid_password] does not return [False]. *)
Definition not_common (p : str) : bool := negb (bool_decide (p ∈ COMMON_PASSWORDS)).
Definition long_enough (p : str) : bool := negb (length p <? 8).
Definition no_whitespace (p : str) : bool := negb (truthy (re_search isspace p)).
Definition has_uppercase (p : str) : bool := truthy (re_search class_upper p).
Definition has_lowercase (p : str) : bool := truthy (re_search class_lower p).
Definition has_digit (p : str) : bool := truthy (re_search isdecimal p).
Definition has_special (p : str) : bool := truthy (re_search class_symbol p).
Definition no_repetition (p : str) : bool := negb (has_excessive_repetition p).
Definition no_keyboard_pattern (p : str) : bool := negb (has_keyboard_pattern p).
Definition no_ambiguous_group (p : str) : bool := negb (has_ambiguous_characters p).
Definition human_like (p : str) : bool := looks_human_like p.

Definition rules : list (str -> bool) :=
  [not_common; long_enough; no_whitespace; has_uppercase; has_lowercase;
   has_digit; has_special; no_repetition; no_keyboard_pattern;
   no_ambiguous_group; human_like].

(** The two lists that the script checks when it is run. *)
Definition accepted_passwords : list str :=
  map lit ["StrongPass1!"; "Valid$Pass2"; "MyPass@123"; "Test#Pass99";
           "Harsh_2025@"; "Python@321"; "Good#Pass77"; "Secure$Pass88";
           "Alpha@2024"; "ValidPass#10"]%string.

Definition rejected_passwords : list str :=
  map lit ["short1!"; "NoNumber!"; "nouppercase1!"; "NOLOWERCASE1!";
           "NoSpecial123"; "1234567890"; "password"; "qwerty123";
           "Pass word1!"; "onlylowercase"]%string.

(** ** app.py *)

Definition gui_special_chars : str :=
  lit "!@#$%^&*(),.?" ++ [dquote] ++ lit ":{}|<>".

Definition gui_common_passwords : gset str :=
  {[ lit "password"; lit "123456"; lit "qwerty";
     lit "letmein"; lit "admin"; lit "iloveyou" ]}.

(** [self.requirements]: display text and check. *)
Definition requirements : list (string * (str -> bool)) :=
  [ ("At least 8 characters"%string,
       fun pwd => 8 <=? length pwd);
    ("Contains uppercase letter"%string,
       fun pwd => existsb isupper pwd);
    ("Contains lowercase letter"%string,
       fun pwd => existsb islower pwd);
    ("Contains digit"%string,
       fun pwd => existsb isdigit pwd);
    ("Contains special character (!@#$%^&* etc.)"%string,
       fun pwd => existsb (in_chars gui_special_chars) pwd);
    ("No whitespace"%string,
       fun pwd => negb (existsb isspace pwd));
    ("Not a common password"%string,
       fun pwd => negb (bool_decide (pwd ∈ gui_common_passwords))) ].

(** [check(pwd)] for every requirement, in checklist order. *)
Definition checks (pwd : str) : list bool :=
  map (fun '(_, check) => check pwd) requirements.

(** The seven baseline tests of [is_valid_password], listed in the order of
    the checklist. *)
Definition baseline_checks (pwd : str) : list bool :=
  [long_enough pwd; has_uppercase pwd; has_lowercase pwd; has_digit pwd;
   has_special pwd; no_whitespace pwd; not_common pwd].

(** [sum(check(pwd) for _, check in self.requirements)] *)
Definition score (pwd : str) : nat :=
  list_sum (map (fun '(_, check) => Nat.b2n (check pwd)) requirements).

(** The colour and label chosen from the score. *)
Definition strength (score : nat) : string * string :=
  if score <=? 3 then ("#d32f2f", "Weak")%string
  else if score <=? 5 then ("#fbc02d", "Medium")%string
  else ("#388e3c", "Strong")%string.

(** What [on_password_change] puts on the screen: a mark and a text per
    requirement, the rectangle of the strength bar (width and colour), the
    strength text, and the cleared result label. *)
Record display := {
  req_labels : list (bool * string);
  strength_bar : nat * string;
  strength_var : string;
  result_label : string
}.

Definition on_password_change (pwd : str) : display :=
  let score := score pwd in
  let '(color, label) := strength score in
  {| req_labels := map (fun '(text, check) => (check pwd, text)) requirements;
     strength_bar := (score * 37, color);
     strength_var := ("Password strength: " ++ label)%string;
     result_label := ""%string |}.

Inductive verdict :=
| InputError
| Accepted (password : str)
| Rejected (password : str).

Definition validate_password (password : str) : verdict :=
  match password with
  | [] => InputError
  | _ => if is_valid_password password then Accepted password
         else Rejected password
  end.

End Validator.

(** ** The Latin-1 block of the database

    Exact for the code points below 256 (Basic Latin and Latin-1 Supplement);
    nothing above is classified or changed by it. *)

Definition in_ranges (rs : list (N * N)) (c : codepoint) : bool :=
  existsb (fun '(lo, hi) => (lo <=? c)%N && (c <=? hi)%N) rs.

Definition latin1_upper : list (N * N) := [(65, 90); (192, 214); (216, 222)]%N.

Definition latin1 : Unicode := {|
  isupper := in_ranges latin1_upper;
  islower := in_ranges [(97, 122); (170, 170); (181, 181); (186, 186);
                        (223, 246); (248, 255)]%N;
  isdigit := in_ranges [(48, 57); (178, 179); (185, 185)]%N;
  isdecimal := in_ranges [(48, 57)]%N;
  isspace := in_ranges [(9, 13); (28, 32); (133, 133); (160, 160)]%N;
  lower := map (fun c => if in_ranges latin1_upper c then (c + 32)%N else c)
|}.

(** Latin capital E with acute, U+00C9; small e with acute, U+00E9;
    superscript two, U+00B2. *)
Definition E_acute : codepoint := 201%N.
Definition e_acute : codepoint := 233%N.
Definition superscript_two : codepoint := 178%N.

(** ** The ASCII block of the database, in full

    Besides the classes of [UnicodeLaws]: the ASCII whitespace of
    [str.isspace] (tab to carriage return, the four separators U+001C to
    U+001F, and the space), and [str.lower] on a string of ASCII characters,
    which maps A-Z to a-z character by character. *)

Definition ascii_lower (c : codepoint) : codepoint :=
  if in_range "A" "Z" c then (c + 32)%N else c.

Record AsciiBlock (U : Unicode) : Prop := {
  block_classes : UnicodeLaws U;
  ascii_isspace :
    forall c, is_ascii c -> isspace c = in_ranges [(9, 13); (28, 32)]%N c;
  ascii_lower_charwise :
    forall s, Forall is_ascii s -> lower s = map ascii_lower s
}.

(** The database that knows the ASCII block and nothing else. *)
Definition ascii_only : Unicode := {|
  isupper := in_range "A" "Z";
  islower := in_range "a" "z";
  isdigit := in_range "0" "9";
  isdecimal := in_range "0" "9";
  isspace := in_ranges [(9, 13); (28, 32)]%N;
  lower := map ascii_lower
|}.

(** ** password_validator.py: the report and the prompt loop *)

Definition space : codepoint := 32%N.
Definition newline : codepoint := 10%N.

(** [format(s, "<w")]: spaces are added on the right up to the width [w]; a
    longer string is left as it is. *)
Definition ljust (w : nat) (s : str) : str :=
  s ++ replicate (w - length s) space.

(** [str(b)] for a boolean. *)
Definition str_of_bool (b : bool) : str :=
  if b then lit "True" else lit "False".

(** The formatted line of [check_passwords_from_list]. *)
Definition report_line (pwd : str) (result expected_result : bool) : str :=
  ljust 16 pwd ++ lit "  " ++ ljust 5 (str_of_bool result) ++
  lit "  (Expected: " ++ str_of_bool expected_result ++ lit ")".

(** How the script ends: the loop was left by [break], or [input] found the
    end of the input. *)
Inductive exit_status := Finished | EOFError.

Section Script.
Context {U : Unicode}.

(** The lines printed, one per password. *)
Definition check_passwords_from_list
    (passwords : list str) (expected_result : bool) : list str :=
  map (fun pwd =>
         let result := is_valid_password pwd in
         report_line pwd result expected_result)
      passwords.

Definition PROMPT : str :=
  [newline] ++ lit "Enter a password to validate (or type 'exit' to stop): ".

(** The [while True] loop of the script, run on the lines that [input]
    returns one after the other; the result is what is written (the prompt
    of every [input] and the printed lines) and how the loop ends. *)
Fixpoint main_loop (stdin : list str) : list str * exit_status :=
  match stdin with
  | [] => ([PROMPT], EOFError)
  | user_pwd :: rest =>
      if bool_decide (lower user_pwd = lit "exit")
      then ([PROMPT; lit "Exiting password validator."], Finished)
      else
        let is_valid := is_valid_password user_pwd in
        let '(out, status) := main_loop rest in
        (PROMPT :: str_of_bool is_valid :: out, status)
  end.

(** The script as a whole. *)
Definition main (stdin : list str) : list str * exit_status :=
  let '(out, status) := main_loop stdin in
  (lit "Checking accepted passwords:" ::
     check_passwords_from_list accepted_passwords true ++
   ([newline] ++ lit "Checking rejected passwords:") ::
     check_passwords_from_list rejected_passwords false ++
   out,
   status).

(** ** app.py: the window

    The widgets that the methods of [PasswordValidatorGUI] read and write.
    A requirement label is its mark (true for the check mark in green, false
    for the cross in red) and its text; the canvas of the strength bar is
    the list of its rectangles (width and colour); the result label is empty
    ([None]) or shows Accepted ([true]) or Rejected ([false]) above the
    password. *)

Record PasswordValidatorGUI := {
  pwd_entry : str;
  pwd_entry_show : string;
  show_pwd_var : bool;
  labels : list (bool * string);
  bar_items : list (nat * string);
  strength_text : string;
  result : option (bool * str);
  tooltip_placed : bool
}.

(** The width given to the canvas of the strength bar. *)
Definition strength_bar_canvas_width : nat := 260.

(** The state that [__init__] builds. *)
Definition init : PasswordValidatorGUI := {|
  pwd_entry := [];
  pwd_entry_show := "*";
  show_pwd_var := false;
  labels := map (fun '(text, _) => (false, text)) requirements;
  bar_items := [];
  strength_text := "";
  result := None;
  tooltip_placed := false
|}.

(** [on_password_change] as a method: it reads the entry and redraws. *)
Definition on_password_change_method
    (self : PasswordValidatorGUI) : PasswordValidatorGUI :=
  let shown := on_password_change (pwd_entry self) in
  {| pwd_entry := pwd_entry self;
     pwd_entry_show := pwd_entry_show self;
     show_pwd_var := show_pwd_var self;
     labels := req_labels shown;
     bar_items := [strength_bar shown];
     strength_text := strength_var shown;
     result := None;
     tooltip_placed := tooltip_placed self |}.

Definition toggle_password
    (self : PasswordValidatorGUI) : PasswordValidatorGUI :=
  {| pwd_entry := pwd_entry self;
     pwd_entry_show := if show_pwd_var self then "" else "*";
     show_pwd_var := show_pwd_var self;
     labels := labels self;
     bar_items := bar_items self;
     strength_text := strength_text self;
     result := result self;
     tooltip_placed := tooltip_placed self |}.

Definition clear_fields
    (self : PasswordValidatorGUI) : PasswordValidatorGUI :=
  {| pwd_entry := [];
     pwd_entry_show := pwd_entry_show self;
     show_pwd_var := show_pwd_var self;
     labels := map (fun '(text, _) => (false, text)) requirements;
     bar_items := [];
     strength_text := "";
     result := None;
     tooltip_placed := tooltip_placed self |}.

Definition set_result (shown : option (bool * str))
    (self : PasswordValidatorGUI) : PasswordValidatorGUI :=
  {| pwd_entry := pwd_entry self;
     pwd_entry_show := pwd_entry_show self;
     show_pwd_var := show_pwd_var self;
     labels := labels self;
     bar_items := bar_items self;
     strength_text := strength_text self;
     result := shown;
     tooltip_placed := tooltip_placed self |}.

(** [validate_password] as a method: the new state, and whether the warning
    box was shown. *)
Definition validate_password_method
    (self : PasswordValidatorGUI) : PasswordValidatorGUI * bool :=
  match validate_password (pwd_entry self) with
  | InputError => (self, true)
  | Accepted password => (set_result (Some (true, password)) self, false)
  | Rejected password => (set_result (Some (false, password)) self, false)
  end.

Definition set_tooltip (placed : bool)
    (self : PasswordValidatorGUI) : PasswordValidatorGUI :=
  {| pwd_entry := pwd_entry self;
     pwd_entry_show := pwd_entry_show self;
     show_pwd_var := show_pwd_var self;
     labels := labels self;
     bar_items := bar_items self;
     strength_text := strength_text self;
     result := result self;
     tooltip_placed := placed |}.

Definition show_tooltip := set_tooltip true.
Definition hide_tooltip := set_tooltip false.

(** What can happen to the window. The content of the entry may change
    with or without a key being released ([Edit]: a paste with the mouse);
    [KeyRelease] runs the bound method on whatever the entry holds; a click
    on the check button flips its variable and then runs [toggle_password];
    the pointer entering and leaving the icon shows and hides the tooltip. *)
Inductive event :=
| Edit (content : str)
| KeyRelease
| ClickShow
| ClickValidate
| ClickClear
| EnterIcon
| LeaveIcon.

Definition set_entry (content : str)
    (self : PasswordValidatorGUI) : PasswordValidatorGUI :=
  {| pwd_entry := content;
     pwd_entry_show := pwd_entry_show self;
     show_pwd_var := show_pwd_var self;
     labels := labels self;
     bar_items := bar_items self;
     strength_text := strength_text self;
     result := result self;
     tooltip_placed := tooltip_placed self |}.

Definition flip_show_pwd_var
    (self : PasswordValidatorGUI) : PasswordValidatorGUI :=
  {| pwd_entry := pwd_entry self;
     pwd_entry_show := pwd_entry_show self;
     show_pwd_var := negb (show_pwd_var self);
     labels := labels self;
     bar_items := bar_items self;
     strength_text := strength_text self;
     result := result self;
     tooltip_placed := tooltip_placed self |}.

Definition handle (self : PasswordValidatorGUI) (e : event)
    : PasswordValidatorGUI :=
  match e with
  | Edit content => set_entry content self
  | KeyRelease => on_password_change_method self
  | ClickShow => toggle_password (flip_show_pwd_var self)
  | ClickValidate => fst (validate_password_method self)
  | ClickClear => clear_fields self
  | EnterIcon => show_tooltip self
  | LeaveIcon => hide_tooltip self
  end.

(** The window after a sequence of events, from the initial state. *)
Definition run (events : list event) : PasswordValidatorGUI :=
  fold_left handle events init.

(** What holds of the window at every moment (see [run_invariant]). *)
Definition window_invariant (self : PasswordValidatorGUI) : Prop :=
  map snd (labels self) = map fst requirements /\
  (bar_items self = [] \/
   exists width color,
     bar_items self = [(width, color)] /\ width < strength_bar_canvas_width) /\
  pwd_entry_show self = (if show_pwd_var self then "" else "*")%string /\
  (forall verdict password,
      result self = Some (verdict, password) ->
      password <> [] /\ verdict = is_valid_password password).

End Script.

(** ** The rule set in words

    The eleven rules as a property of the password. The three places where
    a rule asks for a letter are parameters: [uppercase] and [lowercase]
    for the fourth and fifth rule, [letter] for the last. *)

Section RuleSet.
Context {U : Unicode}.

Definition rule_set (uppercase lowercase letter : codepoint -> Prop)
    (p : str) : Prop :=
  (* 1, not a common password *)
  (p ∉ COMMON_PASSWORDS) /\
  (* 2, minimum length *)
  8 <= length p /\
  (* 3, no whitespace *)
  (forall c, c ∈ p -> isspace c = false) /\
  (* 4, an uppercase letter *)
  (exists c, c ∈ p /\ uppercase c) /\
  (* 5, a lowercase letter *)
  (exists c, c ∈ p /\ lowercase c) /\
  (* 6, a decimal digit *)
  (exists c, c ∈ p /\ isdecimal c = true) /\
  (* 7, a special character *)
  (exists c, c ∈ p /\ c ∈ symbol_members) /\
  (* 8, no character more than floor(length/2) times *)
  (forall c, count p c <= length p / 2) /\
  (* 9, no keyboard pattern in the lowercased password *)
  (forall pat, pat ∈ patterns ->
               ~ exists pre suf, lower p = pre ++ pat ++ suf) /\
  (* 10, no dominant ambiguous group *)
  (count p (ord "l") + count p (ord "1") + count p (ord "I") <= length p / 2 /\
   count p (ord "O") + count p (ord "0") + count p (ord "o") <= length p / 2) /\
  (* 11, a letter, a digit and a special character *)
  ((exists c, c ∈ p /\ letter c) /\
   (exists c, c ∈ p /\ isdecimal c = true) /\
   (exists c, c ∈ p /\ c ∈ symbol_members)).

(** The rules with a letter being what the character classification of the
    language says: [str.isupper], [str.islower], and either for a letter of
    any case. *)
Definition rules_as_classified : str -> Prop :=
  rule_set (fun c => isupper c = true) (fun c => islower c = true)
           (fun c => isupper c = true \/ islower c = true).

(** The rules with a letter being an ASCII letter: A to Z, a to z, and
    either for a letter of any case. *)
Definition rules_ascii_letters : str -> Prop :=
  rule_set (fun c => (ord "A" <= c <= ord "Z")%N)
           (fun c => (ord "a" <= c <= ord "z")%N)
           (fun c => (ord "A" <= c <= ord "Z")%N \/ (ord "a" <= c <= ord "z")%N).

End RuleSet.

(** ** The validator on any Python object

    Python checks at run time what the functions above take for granted:
    that the argument is a string. Here the argument is any object of three
    kinds (a string, [None], an integer) and every operation either returns
    or raises, as the interpreter does: [len] and [set] raise [TypeError] on
    an object that has no length or cannot be iterated, [re.search] and
    [in] raise [TypeError] on one that is not a string, and looking up
    [lower] or [count] on one that has no such method raises
    [AttributeError]. The functions keep their names inside [Py]. *)

Module Py.

Inductive exception := TypeError | AttributeError.

Inductive outcome (A : Type) :=
| Return (a : A)
| Raise (e : exception).
Arguments Return {A} a.
Arguments Raise {A} e.

(** An exception raised by a step is raised by the whole. *)
Definition bind {A B} (c : outcome A) (k : A -> outcome B) : outcome B :=
  match c with
  | Return a => k a
  | Raise e => Raise e
  end.

Notation "'let*' x := c 'in' k" := (bind c (fun x => k))
  (at level 10, x name, c at level 100, k at level 200).

Inductive object :=
| Str (s : str)
| None
| Int (n : Z).

(** [x in COMMON_PASSWORDS]: the three kinds of object can be hashed and
    compared; only a string is equal to an entry. *)
Definition in_COMMON_PASSWORDS (x : object) : outcome bool :=
  match x with
  | Str s => Return (bool_decide (s ∈ COMMON_PASSWORDS))
  | None | Int _ => Return false
  end.

(** [len(x)] *)
Definition len (x : object) : outcome nat :=
  match x with
  | Str s => Return (length s)
  | None | Int _ => Raise TypeError
  end.

(** [re.search(pattern, x)], the pattern being one character class. *)
Definition search (class : codepoint -> bool) (x : object)
    : outcome (option codepoint) :=
  match x with
  | Str s => Return (re_search class s)
  | None | Int _ => Raise TypeError
  end.

(** [set(x)], as the list of its elements. *)
Definition set (x : object) : outcome (list codepoint) :=
  match x with
  | Str s => Return (elements (list_to_set s : gset codepoint))
  | None | Int _ => Raise TypeError
  end.

(** [x.count(c)] for a one-character string [c]. *)
Definition count_of (x : object) (c : codepoint) : outcome nat :=
  match x with
  | Str s => Return (count s c)
  | None | Int _ => Raise AttributeError
  end.

(** [pat in x] for a string [pat]. *)
Definition occurs_in (pat : str) (x : object) : outcome bool :=
  match x with
  | Str s => Return (contains pat s)
  | None | Int _ => Raise TypeError
  end.

(** A loop [for a in l: if test(a): return True] followed by
    [return False]. *)
Fixpoint for_any {A} (test : A -> outcome bool) (l : list A) : outcome bool :=
  match l with
  | [] => Return false
  | a :: l' => let* b := test a in if b then Return true else for_any test l'
  end.

(** [sum(f(a) for a in l)] *)
Fixpoint sum {A} (f : A -> outcome nat) (l : list A) : outcome nat :=
  match l with
  | [] => Return 0
  | a :: l' => let* n := f a in let* m := sum f l' in Return (n + m)
  end.

Definition has_excessive_repetition (password : object) : outcome bool :=
  let* chars := set password in
  for_any (fun char =>
             let* n := count_of password char in
             let* l := len password in
             Return (l / 2 <? n))
          chars.

Definition has_ambiguous_characters (password : object) : outcome bool :=
  for_any (fun group =>
             let* count := sum (count_of password) group in
             let* l := len password in
             Return (l / 2 <? count))
          ambiguous_groups.

Section WithDatabase.
Context {U : Unicode}.

(** [x.lower()] *)
Definition lower_of (x : object) : outcome object :=
  match x with
  | Str s => Return (Str (lower s))
  | None | Int _ => Raise AttributeError
  end.

Definition has_keyboard_pattern (password : object) : outcome bool :=
  for_any (fun pat =>
             let* lowered := lower_of password in
             occurs_in pat lowered)
          patterns.

Definition looks_human_like (password : object) : outcome bool :=
  let* letter := search class_letter password in
  let* digit := search isdecimal password in
  let* symbol := search class_symbol password in
  let has_letter := truthy letter in
  let has_digit := truthy digit in
  let has_symbol := truthy symbol in
  Return (has_letter && has_digit && has_symbol).

Definition is_valid_password (password : object) : outcome bool :=
  let* common := in_COMMON_PASSWORDS password in
  if common then Return false else
  let* l := len password in
  if l <? 8 then Return false else
  let* space := search isspace password in
  if truthy space then Return false else
  let* capital := search class_upper password in
  if negb (truthy capital) then Return false else
  let* small := search class_lower password in
  if negb (truthy small) then Return false else
  let* digit := search isdecimal password in
  if negb (truthy digit) then Return false else
  let* symbol := search class_symbol password in
  if negb (truthy symbol) then Return false else
  let* repetition := has_excessive_repetition password in
  if repetition then Return false else
  let* pattern := has_keyboard_pattern password in
  if pattern then Return false else
  let* ambiguous := has_ambiguous_characters password in
  if ambiguous then Return false else
  let* human := looks_human_like password in
  if negb human then Return false else
  Return true.

End WithDatabase.

End Py.

(** ** Basic facts about the string primitives *)

Lemma truthy_re_search (class : codepoint -> bool) (s : str) :
  truthy (re_search class s) = existsb class s.
Proof.
  unfold re_search. induction s as [|c s IH]; simpl; [reflexivity|].
  destruct (class c); simpl; [reflexivity | exact IH].
Qed.

Lemma existsb_elem {A} (f : A -> bool) (l : list A) :
  existsb f l = true <-> exists x, x ∈ l /\ f x = true.
Proof.
  rewrite existsb_exists.
  split; intros (x & Hx & Hf); exists x; split; auto;
    now apply list_elem_of_In.
Qed.

Lemma re_search_true (class : codepoint -> bool) (s : str) :
  truthy (re_search class s) = true <-> exists c, c ∈ s /\ class c = true.
Proof. rewrite truthy_re_search. apply existsb_elem. Qed.

Lemma in_range_spec (lo hi : ascii) (c : codepoint) :
  in_range lo hi c = true <-> (ord lo <= c <= ord hi)%N.
Proof.
  unfold in_range. rewrite andb_true_iff, !N.leb_le. reflexivity.
Qed.

Lemma in_chars_spec (members : str) (c : codepoint) :
  in_chars members c = true <-> c ∈ members.
Proof.
  unfold in_chars. rewrite existsb_elem. split.
  - intros (x & Hx & Heq). apply N.eqb_eq in Heq. now subst.
  - intros Hc. exists c. split; [assumption | apply N.eqb_refl].
Qed.

Lemma startswith_spec (pat s : str) :
  startswith pat s = true <-> exists suf, s = pat ++ suf.
Proof.
  revert s. induction pat as [|a pat IH]; intros [|b s]; simpl.
  - split; eauto.
  - split; eauto.
  - split; [discriminate | intros (suf & Hsuf); discriminate].
  - rewrite andb_true_iff, N.eqb_eq, IH. split.
    + intros (-> & suf & ->). eauto.
    + intros (suf & Hsuf). injection Hsuf as -> ->. eauto.
Qed.

(** [contains pat s] is the test for a contiguous occurrence of [pat]. *)
Lemma contains_spec (pat s : str) :
  contains pat s = true <-> exists pre suf, s = pre ++ pat ++ suf.
Proof.
  induction s as [|b s IH]; simpl; rewrite orb_true_iff, startswith_spec.
  - split.
    + intros [(suf & Hsuf)|]; [|discriminate]. exists [], suf. exact Hsuf.
    + intros (pre & suf & Hs). left. destruct pre; [eauto | discriminate].
  - rewrite IH. split.
    + intros [(suf & Hsuf)|(pre & suf & ->)].
      * exists [], suf. exact Hsuf.
      * exists (b :: pre), suf. reflexivity.
    + intros ([|x pre] & suf & Hs).
      * left. eauto.
      * right. injection Hs as -> ->. eauto.
Qed.

Lemma count_pos_elem (s : str) (c : codepoint) : 0 < count s c <-> c ∈ s.
Proof.
  unfold count. rewrite list_elem_of_In. symmetry. apply count_occ_In.
Qed.

Lemma count_le_length (s : str) (c : codepoint) : count s c <= length s.
Proof. apply count_occ_bound. Qed.

(** Two different characters share the positions of the string. *)
Lemma count_two_le (s : str) (c d : codepoint) :
  c <> d -> count s c + count s d <= length s.
Proof.
  intros Hne. unfold count. induction s as [|x s IH]; simpl; [lia|].
  destruct (N.eq_dec x c), (N.eq_dec x d); lia.
Qed.

(** ** The rules, one by one *)

Lemma not_common_spec (p : str) :
  not_common p = true <-> p ∉ COMMON_PASSWORDS.
Proof.
  unfold not_common. rewrite negb_true_iff, bool_decide_eq_false. reflexivity.
Qed.

Lemma long_enough_spec (p : str) : long_enough p = true <-> 8 <= length p.
Proof.
  unfold long_enough. rewrite negb_true_iff, Nat.ltb_ge. reflexivity.
Qed.

Lemma has_lowercase_spec (p : str) :
  has_lowercase p = true <-> exists c, c ∈ p /\ (ord "a" <= c <= ord "z")%N.
Proof.
  unfold has_lowercase, class_lower. rewrite re_search_true.
  split; intros (c & Hc & Hr); exists c; split; auto;
    now apply in_range_spec.
Qed.

Lemma has_special_spec (p : str) :
  has_special p = true <-> exists c, c ∈ p /\ c ∈ symbol_members.
Proof.
  unfold has_special, class_symbol. rewrite re_search_true.
  split; intros (c & Hc & Hr); exists c; split; auto;
    now apply in_chars_spec.
Qed.

Lemma has_excessive_repetition_iff (p : str) :
  has_excessive_repetition p = true <-> exists c, length p / 2 < count p c.
Proof.
  unfold has_excessive_repetition, half_len. rewrite existsb_elem.
  split.
  - intros (c & _ & Hgt). exists c. now apply Nat.ltb_lt.
  - intros (c & Hgt). exists c. split; [|now apply Nat.ltb_lt].
    apply elem_of_elements, elem_of_list_to_set, count_pos_elem. lia.
Qed.

(** The decision of [has_excessive_repetition] does not depend on the order
    in which the set is iterated. *)
Lemma excessive_repetition_any_order (password : str) (order : list codepoint) :
  (forall c, c ∈ order <-> c ∈ password) ->
  existsb (fun char => half_len password <? count password char) order
  = has_excessive_repetition password.
Proof.
  intros Horder. apply eq_true_iff_eq.
  rewrite has_excessive_repetition_iff, existsb_elem. unfold half_len.
  split.
  - intros (c & _ & Hgt). exists c. now apply Nat.ltb_lt.
  - intros (c & Hgt). exists c. split; [|now apply Nat.ltb_lt].
    apply Horder, count_pos_elem. lia.
Qed.

Lemma no_repetition_spec (p : str) :
  no_repetition p = true <-> forall c, count p c <= length p / 2.
Proof.
  unfold no_repetition.
  rewrite negb_true_iff, <- not_true_iff_false, has_excessive_repetition_iff.
  split.
  - intros Hnone c. destruct (le_lt_dec (count p c) (length p / 2)); [auto|].
    exfalso. eauto.
  - intros Hall (c & Hgt). specialize (Hall c). lia.
Qed.

Section Rules.
Context {U : Unicode}.

Lemma no_whitespace_spec (p : str) :
  no_whitespace p = true <-> forall c, c ∈ p -> isspace c = false.
Proof.
  unfold no_whitespace.
  rewrite negb_true_iff, <- not_true_iff_false, re_search_true. split.
  - intros Hnone c Hc. apply not_true_is_false. eauto.
  - intros Hall (c & Hc & Hsp). rewrite (Hall c Hc) in Hsp. discriminate.
Qed.

Lemma has_digit_spec (p : str) :
  has_digit p = true <-> exists c, c ∈ p /\ isdecimal c = true.
Proof. apply re_search_true. Qed.

Lemma no_keyboard_pattern_spec (p : str) :
  no_keyboard_pattern p = true <->
  forall pat, pat ∈ patterns ->
              ~ exists pre suf, lower p = pre ++ pat ++ suf.
Proof.
  unfold no_keyboard_pattern, has_keyboard_pattern.
  rewrite negb_true_iff, <- not_true_iff_false, existsb_elem. split.
  - intros Hnone pat Hpat Hocc. apply Hnone. exists pat.
    split; [assumption | now apply contains_spec].
  - intros Hall (pat & Hpat & Hocc). apply (Hall pat Hpat).
    now apply contains_spec.
Qed.

Lemma looks_human_like_spec (p : str) :
  looks_human_like p = true <->
  (exists c, c ∈ p /\ class_letter c = true) /\
  (exists c, c ∈ p /\ isdecimal c = true) /\
  (exists c, c ∈ p /\ c ∈ symbol_members).
Proof.
  unfold looks_human_like. cbv zeta.
  rewrite !andb_true_iff, !re_search_true.
  assert (Hsym : (exists c, c ∈ p /\ class_symbol c = true) <->
                 (exists c, c ∈ p /\ c ∈ symbol_members)).
  { split; intros (c & Hc & Hr); exists c; split; auto;
      now apply in_chars_spec. }
  rewrite Hsym. tauto.
Qed.

(** The cascade of early returns computes the conjunction of its eleven
    tests. *)
Lemma is_valid_password_andb (p : str) :
  is_valid_password p =
  not_common p && long_enough p && no_whitespace p && has_uppercase p &&
  has_lowercase p && has_digit p && has_special p && no_repetition p &&
  no_keyboard_pattern p && no_ambiguous_group p && human_like p.
Proof.
  unfold is_valid_password, not_common, long_enough, no_whitespace,
    has_uppercase, has_lowercase, has_digit, has_special, no_repetition,
    no_keyboard_pattern, no_ambiguous_group, human_like.
  destruct (bool_decide (p ∈ COMMON_PASSWORDS)); [reflexivity|].
  destruct (length p <? 8); [reflexivity|].
  destruct (truthy (re_search isspace p)); [reflexivity|].
  destruct (truthy (re_search class_upper p)); [|reflexivity].
  destruct (truthy (re_search class_lower p)); [|reflexivity].
  destruct (truthy (re_search isdecimal p)); [|reflexivity].
  destruct (truthy (re_search class_symbol p)); [|reflexivity].
  destruct (has_excessive_repetition p); [reflexivity|].
  destruct (has_keyboard_pattern p); [reflexivity|].
  destruct (has_ambiguous_characters p); [reflexivity|].
  destruct (looks_human_like p); reflexivity.
Qed.

(** What acceptance says about the seven baseline tests. *)
Lemma valid_baseline (p : str) :
  is_valid_password p = true ->
  not_common p = true /\ long_enough p = true /\ no_whitespace p = true /\
  has_uppercase p = true /\ has_lowercase p = true /\ has_digit p = true /\
  has_special p = true.
Proof.
  rewrite is_valid_password_andb, !andb_true_iff. tauto.
Qed.

(** The same as a conjunction of the eleven named tests. *)
Lemma is_valid_password_iff_all_rules (p : str) :
  is_valid_password p = true <->
  not_common p = true /\ long_enough p = true /\ no_whitespace p = true /\
  has_uppercase p = true /\ has_lowercase p = true /\ has_digit p = true /\
  has_special p = true /\ no_repetition p = true /\
  no_keyboard_pattern p = true /\ no_ambiguous_group p = true /\
  human_like p = true.
Proof.
  rewrite is_valid_password_andb, !andb_true_iff.
  split.
  - intros [[[[[[[[[[H1 H2] H3] H4] H5] H6] H7] H8] H9] H10] H11].
    repeat split; assumption.
  - intros (H1 & H2 & H3 & H4 & H5 & H6 & H7 & H8 & H9 & H10 & H11).
    repeat split; assumption.
Qed.

(** The same, over the list of rules: the order of the tests does not
    matter for the decision. *)
Lemma is_valid_password_forall_rules (p : str) :
  is_valid_password p = true <-> Forall (fun rule => rule p = true) rules.
Proof.
  rewrite is_valid_password_andb, !andb_true_iff. unfold rules.
  rewrite !Forall_cons, Forall_nil. tauto.
Qed.

End Rules.

(** ** The uppercase rule *)

(** C3, as the code has it. The uppercase rule of [is_valid_password] passes
    exactly when the password contains one of the ASCII capitals A to Z
    (U+0041 to U+005A); the Unicode classification plays no part in it. *)
Theorem has_uppercase_ascii_only (p : str) :
  has_uppercase p = true <->
  exists c, c ∈ p /\ (ord "A" <= c <= ord "Z")%N.
Proof.
  unfold has_uppercase, class_upper. rewrite re_search_true.
  split; intros (c & Hc & Hr); exists c; split; auto;
    now apply in_range_spec.
Qed.

(** C3, as stated, fails: a password whose only capital is U+00C9 contains
    a character that [str.isupper] classifies as uppercase, yet the uppercase
    rule of [is_valid_password] does not pass. *)
Lemma has_uppercase_not_unicode :
  ~ (has_uppercase (E_acute :: lit "abcdef1!") = true <->
     exists c, c ∈ E_acute :: lit "abcdef1!" /\ @isupper latin1 c = true).
Proof.
  intros [_ Hback].
  assert (Hfalse : has_uppercase (E_acute :: lit "abcdef1!") = false)
    by (vm_compute; reflexivity).
  rewrite Hback in Hfalse; [discriminate|].
  exists E_acute. split; [apply list_elem_of_here | vm_compute; reflexivity].
Qed.

(** ** Excessive repetition *)

(** C4. [has_excessive_repetition] holds exactly when some character occurs
    more than [len(p) // 2] times; in a password of length 8 a character
    occurring exactly 4 times does not trigger it, one occurring 5 times
    does. *)
Theorem has_excessive_repetition_spec (p : str) :
  (has_excessive_repetition p = true <-> exists c, length p / 2 < count p c) /\
  (forall c, length p = 8 -> count p c = 4 ->
             has_excessive_repetition p = false) /\
  (forall c, length p = 8 -> count p c = 5 ->
             has_excessive_repetition p = true).
Proof.
  split; [apply has_excessive_repetition_iff|]. split.
  - intros c Hlen Hc. apply not_true_is_false.
    rewrite has_excessive_repetition_iff, Hlen. intros (d & Hd).
    change (8 / 2) with 4 in Hd.
    destruct (N.eq_dec c d) as [->|Hne]; [lia|].
    pose proof (count_two_le p c d Hne). lia.
  - intros c Hlen Hc. apply has_excessive_repetition_iff.
    exists c. rewrite Hlen, Hc. change (8 / 2) with 4. lia.
Qed.

Lemma has_excessive_repetition_spec_witness :
  has_excessive_repetition (lit "aaaaBc1!") = false /\
  has_excessive_repetition (lit "aaaaaB1!") = true.
Proof.
  split.
  - apply (proj1 (proj2 (has_excessive_repetition_spec (lit "aaaaBc1!")))
             (ord "a")); reflexivity.
  - apply (proj2 (proj2 (has_excessive_repetition_spec (lit "aaaaaB1!")))
             (ord "a")); reflexivity.
Defined.

(** The same boundary one character shorter: with 7 characters, 3 equal ones
    are allowed and 4 are not. *)
Example has_excessive_repetition_length_7 :
  has_excessive_repetition (lit "aaaBc1!") = false /\
  has_excessive_repetition (lit "aaaaB1!") = true /\
  has_excessive_repetition [] = false.
Proof. repeat split; vm_compute; reflexivity. Qed.

(** ** Ambiguous characters *)

(** C5. [has_ambiguous_characters] holds exactly when, for one of the two
    groups l 1 I and O 0 o, the occurrences of the group's three characters
    (compared as code points, no case folding) add up to more than
    [len(p) // 2]. *)
Theorem has_ambiguous_characters_spec (p : str) :
  has_ambiguous_characters p = true <->
  length p / 2 < count p (ord "l") + count p (ord "1") + count p (ord "I") \/
  length p / 2 < count p (ord "O") + count p (ord "0") + count p (ord "o").
Proof.
  unfold has_ambiguous_characters, ambiguous_groups, half_len, lit.
  cbn [existsb map list_ascii_of_string]. unfold list_sum. cbn [fold_right].
  rewrite orb_false_r, orb_true_iff, !Nat.ltb_lt. lia.
Qed.

(** The counts are exact: the capital L and the small i belong to no group. *)
Example has_ambiguous_characters_exact :
  has_ambiguous_characters (lit "LiLiLiLi") = false /\
  has_ambiguous_characters (lit "lIlIl1ab") = true /\
  has_ambiguous_characters (lit "O0oO0abc") = true /\
  has_ambiguous_characters (lit "O0oOabcd") = false.
Proof. repeat split; vm_compute; reflexivity. Qed.

(** ** Human-like composition, and the empty password *)

Section HumanLike.
Context {U : Unicode}.

Lemma class_upper_letter (c : codepoint) :
  class_upper c = true -> class_letter c = true.
Proof.
  unfold class_upper, class_letter. intros ->. reflexivity.
Qed.

(** C6. A password that passes the uppercase, lowercase, digit and special
    character tests of [is_valid_password] passes [looks_human_like]. *)
Theorem looks_human_like_implied (p : str) :
  has_uppercase p = true -> has_lowercase p = true ->
  has_digit p = true -> has_special p = true ->
  looks_human_like p = true.
Proof.
  unfold has_uppercase, has_digit, has_special, looks_human_like.
  intros Hup _ Hdigit Hsym. cbv zeta. rewrite Hdigit, Hsym, !andb_true_r.
  apply re_search_true in Hup as (c & Hc & Hcls).
  apply re_search_true. exists c.
  split; [assumption | now apply class_upper_letter].
Qed.

(** Hence the last test of [is_valid_password] never decides: the first ten
    tests alone give the same answer. *)
Lemma is_valid_password_ten_rules (p : str) :
  is_valid_password p =
  not_common p && long_enough p && no_whitespace p && has_uppercase p &&
  has_lowercase p && has_digit p && has_special p && no_repetition p &&
  no_keyboard_pattern p && no_ambiguous_group p.
Proof.
  rewrite is_valid_password_andb.
  destruct (has_uppercase p) eqn:Hup; [|now rewrite !andb_false_r].
  destruct (has_digit p) eqn:Hdigit; [|now rewrite !andb_false_r].
  destruct (has_special p) eqn:Hsym; [|now rewrite !andb_false_r].
  assert (Hhuman : human_like p = true).
  { apply looks_human_like_spec.
    apply re_search_true in Hup as (c & Hc & Hcls).
    split; [|split].
    - exists c. split; [assumption | now apply class_upper_letter].
    - now apply has_digit_spec.
    - now apply has_special_spec. }
  rewrite Hhuman, andb_true_r. reflexivity.
Qed.

Lemma no_ambiguous_group_spec (p : str) :
  no_ambiguous_group p = true <->
  count p (ord "l") + count p (ord "1") + count p (ord "I") <= length p / 2 /\
  count p (ord "O") + count p (ord "0") + count p (ord "o") <= length p / 2.
Proof.
  unfold no_ambiguous_group, has_ambiguous_characters, ambiguous_groups,
    half_len, lit.
  cbn [existsb map list_ascii_of_string]. unfold list_sum. cbn [fold_right].
  rewrite negb_true_iff, orb_false_r, orb_false_iff, !Nat.ltb_ge. lia.
Qed.

(** Acceptance in words: what a password must be like to be accepted. The
    letters asked for are ASCII letters; the digit is any decimal digit and
    whitespace any whitespace of the Unicode database. *)
Lemma is_valid_password_in_words (p : str) :
  is_valid_password p = true <->
  (p ∉ COMMON_PASSWORDS) /\
  8 <= length p /\
  (forall c, c ∈ p -> isspace c = false) /\
  (exists c, c ∈ p /\ (ord "A" <= c <= ord "Z")%N) /\
  (exists c, c ∈ p /\ (ord "a" <= c <= ord "z")%N) /\
  (exists c, c ∈ p /\ isdecimal c = true) /\
  (exists c, c ∈ p /\ c ∈ symbol_members) /\
  (forall c, count p c <= length p / 2) /\
  (forall pat, pat ∈ patterns ->
               ~ exists pre suf, lower p = pre ++ pat ++ suf) /\
  count p (ord "l") + count p (ord "1") + count p (ord "I") <= length p / 2 /\
  count p (ord "O") + count p (ord "0") + count p (ord "o") <= length p / 2.
Proof.
  rewrite is_valid_password_ten_rules, !andb_true_iff.
  rewrite not_common_spec, long_enough_spec, no_whitespace_spec,
    has_lowercase_spec, has_digit_spec, has_special_spec, no_repetition_spec,
    no_keyboard_pattern_spec, no_ambiguous_group_spec.
  assert (Hup : has_uppercase p = true <->
                exists c, c ∈ p /\ (ord "A" <= c <= ord "Z")%N).
  { unfold has_uppercase, class_upper. rewrite re_search_true.
    split; intros (c & Hc & Hr); exists c; split; auto;
      now apply in_range_spec. }
  rewrite Hup. tauto.
Qed.

End HumanLike.

Lemma looks_human_like_implied_witness :
  @looks_human_like latin1 (lit "Aa1!") = true.
Proof.
  apply (@looks_human_like_implied latin1 (lit "Aa1!")); reflexivity.
Defined.

(** ** The Latin-1 block satisfies the laws *)

Lemma in_ranges_spec (rs : list (N * N)) (c : codepoint) :
  in_ranges rs c = true <-> Exists (fun r => (r.1 <= c <= r.2)%N) rs.
Proof.
  unfold in_ranges. rewrite existsb_elem, Exists_exists.
  split; intros ([lo hi] & Hin & Hr); exists (lo, hi); split;
    try assumption; simpl in *;
    rewrite andb_true_iff, !N.leb_le in *; assumption.
Qed.

Ltac eval_ord :=
  repeat match goal with
         | |- context [ord ?a] =>
             let v := eval vm_compute in (ord a) in change (ord a) with v
         end.

Ltac ranges_to_prop :=
  unfold is_ascii; cbn [isupper islower isdigit isdecimal latin1];
  unfold latin1_upper;
  rewrite ?in_ranges_spec, ?in_range_spec, ?Exists_cons, ?Exists_nil;
  eval_ord; cbn [fst snd].

Lemma latin1_laws : UnicodeLaws latin1.
Proof.
  split; intros c Hc; try apply eq_true_iff_eq; revert Hc;
    ranges_to_prop; lia.
Qed.

(** The script's own lists, on the Latin-1 block: every password of the
    first is accepted, every password of the second rejected. *)
Example accepted_passwords_accepted :
  Forall (fun p => @is_valid_password latin1 p = true) accepted_passwords.
Proof. repeat constructor. Qed.

Example rejected_passwords_rejected :
  Forall (fun p => @is_valid_password latin1 p = false) rejected_passwords.
Proof. repeat constructor. Qed.

(** ** The checklist and the strength meter *)

Section Checklist.
Context {U : Unicode}.

Lemma score_checks (p : str) : score p = list_sum (map Nat.b2n (checks p)).
Proof. reflexivity. Qed.

Lemma score_le_7 (p : str) : score p <= 7.
Proof.
  rewrite score_checks. unfold checks, requirements.
  cbn [map]. unfold list_sum. cbn [fold_right].
  repeat match goal with
         | |- context [Nat.b2n ?b] => destruct b; cbn [Nat.b2n]
         end; lia.
Qed.

Lemma strength_var_label (p : str) :
  strength_var (on_password_change p)
  = ("Password strength: " ++ snd (strength (score p)))%string.
Proof.
  unfold on_password_change. destruct (strength (score p)). reflexivity.
Qed.

(** The bar is as wide as the score says, 37 pixels a point. *)
Lemma strength_bar_width (p : str) :
  fst (strength_bar (on_password_change p)) = score p * 37.
Proof.
  unfold on_password_change. destruct (strength (score p)). reflexivity.
Qed.

(** C7. The score is the number of the seven requirements of the checklist
    (length, uppercase, lowercase, digit, special character, no whitespace,
    not common) whose check holds of the password, and the label shown
    follows from the score: Weak up to 3, Medium for 4 and 5, Strong from
    6. *)
Theorem score_and_strength (p : str) :
  map fst requirements =
    ["At least 8 characters"; "Contains uppercase letter";
     "Contains lowercase letter"; "Contains digit";
     "Contains special character (!@#$%^&* etc.)"; "No whitespace";
     "Not a common password"]%string /\
  score p = length (List.filter (fun '(_, check) => check p) requirements) /\
  (forall n, n <= 3 -> snd (strength n) = "Weak"%string) /\
  (forall n, 4 <= n <= 5 -> snd (strength n) = "Medium"%string) /\
  (forall n, 6 <= n -> snd (strength n) = "Strong"%string) /\
  strength_var (on_password_change p)
  = ("Password strength: " ++ snd (strength (score p)))%string.
Proof.
  split; [reflexivity|]. split.
  - unfold score. induction requirements as [|[text check] reqs IH];
      [reflexivity|].
    cbn [map List.filter]. destruct (check p); simpl; rewrite <- IH;
      reflexivity.
  - repeat split; try apply strength_var_label; intros n Hn; unfold strength;
      repeat match goal with
             | |- context [?a <=? ?b] => destruct (Nat.leb_spec a b)
             end; simpl; try reflexivity; lia.
Qed.

End Checklist.

Lemma score_and_strength_witness :
  snd (strength 3) = "Weak"%string /\
  snd (strength 5) = "Medium"%string /\
  snd (strength 6) = "Strong"%string.
Proof.
  pose proof (@score_and_strength latin1 (lit "StrongPass1!"))
    as (_ & _ & Hweak & Hmedium & Hstrong & _).
  split; [apply Hweak; lia|]. split; [apply Hmedium; lia | apply Hstrong; lia].
Defined.

(** ** The checklist against the baseline tests of the validator *)

Lemma existsb_agree {A} (f g : A -> bool) (l : list A) :
  Forall (fun x => f x = g x) l -> existsb f l = existsb g l.
Proof.
  induction 1 as [|x l Hx _ IH]; simpl; [reflexivity|]. now rewrite Hx, IH.
Qed.

Lemma existsb_weaken {A} (f g : A -> bool) (l : list A) :
  (forall x, f x = true -> g x = true) ->
  existsb f l = true -> existsb g l = true.
Proof.
  intros Hfg. rewrite !existsb_exists.
  intros (x & Hx & Hf). exists x. auto.
Qed.

(** C2, as stated, fails: on a password whose only capital is U+00C9 the
    checklist marks the uppercase requirement as met, the uppercase test of
    [is_valid_password] does not pass. *)
Lemma checklist_differs_from_baseline :
  @checks latin1 (E_acute :: lit "abcdef1!")
  <> @baseline_checks latin1 (E_acute :: lit "abcdef1!").
Proof. vm_compute. discriminate. Qed.

(** The lowercase and the digit requirement differ in the same way. *)
Example checklist_differs_lowercase_digit :
  existsb (@islower latin1) (e_acute :: lit "ABCDEF1!") = true /\
  has_lowercase (e_acute :: lit "ABCDEF1!") = false /\
  existsb (@isdigit latin1) (superscript_two :: lit "Abcdefg!") = true /\
  @has_digit latin1 (superscript_two :: lit "Abcdefg!") = false.
Proof. repeat split; vm_compute; reflexivity. Qed.

Section ChecklistBaseline.
Context {U : Unicode}.

(** The checklist, entry by entry: four of the seven are the baseline tests
    of the validator. *)
Lemma checks_entries (p : str) :
  checks p = [long_enough p; existsb isupper p; existsb islower p;
              existsb isdigit p; has_special p; no_whitespace p;
              not_common p].
Proof.
  unfold checks, requirements, long_enough, has_special, no_whitespace,
    not_common. cbn [map].
  rewrite !truthy_re_search, Nat.ltb_antisym, negb_involutive.
  reflexivity.
Qed.

Context (HU : UnicodeLaws U).

Lemma class_upper_isupper (c : codepoint) :
  class_upper c = true -> isupper c = true.
Proof.
  intros Hc. rewrite (ascii_isupper U HU); [exact Hc|].
  apply in_range_spec in Hc. revert Hc. unfold is_ascii. eval_ord. lia.
Qed.

Lemma class_lower_islower (c : codepoint) :
  class_lower c = true -> islower c = true.
Proof.
  intros Hc. rewrite (ascii_islower U HU); [exact Hc|].
  apply in_range_spec in Hc. revert Hc. unfold is_ascii. eval_ord. lia.
Qed.

Lemma has_uppercase_isupper (p : str) :
  has_uppercase p = true -> existsb isupper p = true.
Proof.
  unfold has_uppercase. rewrite truthy_re_search.
  apply existsb_weaken, class_upper_isupper.
Qed.

Lemma has_lowercase_islower (p : str) :
  has_lowercase p = true -> existsb islower p = true.
Proof.
  unfold has_lowercase. rewrite truthy_re_search.
  apply existsb_weaken, class_lower_islower.
Qed.

Lemma has_digit_isdigit (p : str) :
  has_digit p = true -> existsb isdigit p = true.
Proof.
  unfold has_digit. rewrite truthy_re_search.
  apply existsb_weaken, (decimal_isdigit U HU).
Qed.

(** C2, as the code has it. The length, special character, whitespace and
    common password requirements of the checklist compute the same boolean
    as the baseline tests of [is_valid_password]. The uppercase, lowercase
    and digit requirements use [str.isupper], [str.islower] and
    [str.isdigit]: they hold whenever the baseline test passes, and they
    agree with it on passwords made of ASCII characters only. *)
Theorem checklist_vs_baseline (p : str) :
  checks p = [long_enough p; existsb isupper p; existsb islower p;
              existsb isdigit p; has_special p; no_whitespace p;
              not_common p] /\
  (has_uppercase p = true -> existsb isupper p = true) /\
  (has_lowercase p = true -> existsb islower p = true) /\
  (has_digit p = true -> existsb isdigit p = true) /\
  (Forall is_ascii p -> checks p = baseline_checks p).
Proof.
  split; [apply checks_entries|].
  split; [apply has_uppercase_isupper|].
  split; [apply has_lowercase_islower|].
  split; [apply has_digit_isdigit|].
  intros Hascii. rewrite checks_entries.
  unfold baseline_checks, has_uppercase, has_lowercase, has_digit.
  rewrite !truthy_re_search.
  rewrite (existsb_agree isupper class_upper p),
    (existsb_agree islower class_lower p),
    (existsb_agree isdigit isdecimal p); [reflexivity | | |];
    (eapply Forall_impl; [exact Hascii|]); intros c Hc.
  - rewrite (ascii_isdigit U HU), (ascii_isdecimal U HU); auto.
  - now apply (ascii_islower U HU).
  - now apply (ascii_isupper U HU).
Qed.

End ChecklistBaseline.

Lemma checklist_vs_baseline_witness :
  @checks latin1 (lit "StrongPass1!") = @baseline_checks latin1 (lit "StrongPass1!").
Proof.
  apply (@checklist_vs_baseline latin1 latin1_laws (lit "StrongPass1!")).
  unfold is_ascii. repeat constructor.
Defined.

(** ** Consequences of acceptance *)

Lemma class_symbol_cases (s : codepoint) :
  class_symbol s = true ->
  (33 <= s <= 46 \/ 58 <= s <= 64 \/ s = 94 \/ 123 <= s <= 125)%N.
Proof.
  unfold class_symbol. rewrite in_chars_spec.
  unfold symbol_members, lit, dquote.
  cbn [map list_ascii_of_string app]. eval_ord.
  rewrite !elem_of_cons, elem_of_nil. lia.
Qed.

Section Accepted.
Context {U : Unicode} (HU : UnicodeLaws U).

(** The four classes of the baseline tests are pairwise disjoint. *)
Lemma classes_disjoint (u l d s : codepoint) :
  class_upper u = true -> class_lower l = true ->
  isdecimal d = true -> class_symbol s = true ->
  NoDup [u; l; d; s].
Proof.
  intros Hu Hl Hd Hs.
  apply in_range_spec in Hu. apply in_range_spec in Hl.
  apply class_symbol_cases in Hs. revert Hu Hl. eval_ord. intros Hu Hl.
  assert (Hdigit : is_ascii d -> (48 <= d <= 57)%N).
  { intros Hascii. rewrite (ascii_isdecimal U HU d Hascii) in Hd.
    apply in_range_spec in Hd. revert Hd. eval_ord. auto. }
  unfold is_ascii in Hdigit.
  rewrite !NoDup_cons, !elem_of_cons, !elem_of_nil.
  repeat split; try apply NoDup_nil_2; lia.
Qed.

(** C9. An accepted password contains an ASCII capital, an ASCII small
    letter, a decimal digit and a character of the special set; any four
    such characters are pairwise different, so the password has at least
    four different characters. *)
Theorem valid_has_four_distinct (p : str) :
  is_valid_password p = true ->
  (exists u l d s,
      (u ∈ p /\ l ∈ p /\ d ∈ p /\ s ∈ p) /\
      ((ord "A" <= u <= ord "Z")%N /\ (ord "a" <= l <= ord "z")%N /\
       isdecimal d = true /\ s ∈ symbol_members) /\
      NoDup [u; l; d; s]) /\
  (forall u l d s,
      (ord "A" <= u <= ord "Z")%N -> (ord "a" <= l <= ord "z")%N ->
      isdecimal d = true -> s ∈ symbol_members ->
      NoDup [u; l; d; s]) /\
  4 <= size (list_to_set p : gset codepoint).
Proof.
  intros Hvalid.
  destruct (valid_baseline p Hvalid) as (_ & _ & _ & Hu & Hl & Hd & Hs).
  apply re_search_true in Hu as (u & Hup & Hu).
  apply re_search_true in Hl as (l & Hlp & Hl).
  apply re_search_true in Hd as (d & Hdp & Hd).
  apply re_search_true in Hs as (s & Hsp & Hs).
  pose proof (classes_disjoint u l d s Hu Hl Hd Hs) as Hnodup.
  split; [|split].
  - exists u, l, d, s. split; [auto|]. split; [|exact Hnodup].
    apply in_range_spec in Hu, Hl. apply in_chars_spec in Hs. auto.
  - intros u' l' d' s' Hu' Hl' Hd' Hs'. apply classes_disjoint; auto.
    + now apply in_range_spec.
    + now apply in_range_spec.
    + now apply in_chars_spec.
  - change 4 with (length [u; l; d; s]).
    rewrite <- (size_list_to_set (C := gset codepoint)) by exact Hnodup.
    apply subseteq_size. intros x. rewrite !elem_of_list_to_set.
    rewrite !elem_of_cons, elem_of_nil.
    intros [->|[->|[->|[->|[]]]]]; assumption.
Qed.

Lemma valid_checks_all_true (p : str) :
  is_valid_password p = true ->
  checks p = [true; true; true; true; true; true; true].
Proof.
  intros Hvalid.
  destruct (valid_baseline p Hvalid) as (Hcm & Hlen & Hws & Hu & Hl & Hd & Hs).
  rewrite checks_entries, Hlen, Hs, Hws, Hcm,
    (has_uppercase_isupper HU p Hu), (has_lowercase_islower HU p Hl),
    (has_digit_isdigit HU p Hd).
  reflexivity.
Qed.

Lemma valid_strength_var (p : str) :
  is_valid_password p = true ->
  score p = 7 /\
  strength_var (on_password_change p) = "Password strength: Strong"%string.
Proof.
  intros Hvalid.
  assert (Hscore : score p = 7)
    by (rewrite score_checks, (valid_checks_all_true p Hvalid); reflexivity).
  split; [exact Hscore|]. rewrite strength_var_label, Hscore. reflexivity.
Qed.

(** C10. On an accepted password every requirement of the checklist is
    met, the score is 7 and the strength shown is Strong, so neither Weak
    nor Medium. *)
Theorem valid_is_strong (p : str) :
  is_valid_password p = true ->
  Forall (fun '(_, check) => check p = true) requirements /\
  score p = 7 /\
  snd (strength (score p)) = "Strong"%string /\
  strength_var (on_password_change p) = "Password strength: Strong"%string.
Proof.
  intros Hvalid.
  destruct (valid_strength_var p Hvalid) as [Hscore Hvar].
  split; [|split; [exact Hscore|split; [|exact Hvar]]].
  - pose proof (valid_checks_all_true p Hvalid) as Hall.
    unfold checks in Hall. revert Hall. unfold requirements.
    cbn [map]. intros Hall. injection Hall as H1 H2 H3 H4 H5 H6 H7.
    repeat (apply Forall_cons; split; [assumption|]). apply Forall_nil_2.
  - rewrite Hscore. reflexivity.
Qed.

(** What the Validate button accepts, the strength meter shows as Strong. *)
Corollary accepted_shown_strong (p : str) :
  validate_password p = Accepted p ->
  strength_var (on_password_change p) = "Password strength: Strong"%string.
Proof.
  unfold validate_password. destruct p as [|c p]; [discriminate|].
  destruct (is_valid_password (c :: p)) eqn:Hvalid; [|discriminate].
  intros _. now apply valid_strength_var.
Qed.

End Accepted.

Lemma valid_has_four_distinct_witness :
  4 <= size (list_to_set (lit "StrongPass1!") : gset codepoint).
Proof.
  apply (@valid_has_four_distinct latin1 latin1_laws (lit "StrongPass1!")).
  vm_compute. reflexivity.
Defined.

Lemma valid_is_strong_witness :
  @score latin1 (lit "StrongPass1!") = 7.
Proof.
  apply (@valid_is_strong latin1 latin1_laws (lit "StrongPass1!")).
  vm_compute. reflexivity.
Defined.

(** The converse of C10 fails: the four advanced tests are not on the
    checklist, so a rejected password can be shown as Strong. *)
Example strong_yet_rejected :
  @score latin1 (lit "Qwerty12345!") = 7 /\
  @is_valid_password latin1 (lit "Qwerty12345!") = false /\
  @validate_password latin1 (lit "Qwerty12345!")
  = Rejected (lit "Qwerty12345!").
Proof. repeat split; vm_compute; reflexivity. Qed.

(** ** More on the two counting rules *)

Lemma half_lt_iff (n a : nat) : n / 2 < a <-> n < 2 * a.
Proof.
  pose proof (Nat.div_mod_eq n 2). pose proof (Nat.mod_upper_bound n 2). lia.
Qed.

(** X1. The floor in [len(password) // 2] changes nothing:
    [has_excessive_repetition] flags a password exactly when one character
    fills more than half of its positions, for odd and for even lengths.
    There is at most one such character. *)
Theorem dominant_character_unique (p : str) :
  (has_excessive_repetition p = true <->
   exists c, length p < 2 * count p c) /\
  (forall c d,
      length p < 2 * count p c -> length p < 2 * count p d -> c = d).
Proof.
  split.
  - rewrite has_excessive_repetition_iff.
    split; intros (c & Hc); exists c; now apply half_lt_iff.
  - intros c d Hc Hd.
    destruct (N.eq_dec c d) as [Heq|Hne]; [exact Heq|].
    pose proof (count_two_le p c d Hne). lia.
Qed.

Lemma dominant_character_unique_witness :
  has_excessive_repetition (lit "aaaaaB1!") = true /\
  ord "a" = ord "a".
Proof.
  pose proof (dominant_character_unique (lit "aaaaaB1!")) as [Hiff Huniq].
  split.
  - apply Hiff. exists (ord "a"). vm_compute. lia.
  - apply Huniq; vm_compute; lia.
Defined.

Lemma count_Permutation (p q : str) (c : codepoint) :
  p ≡ₚ q -> count p c = count q c.
Proof.
  intros Hperm. unfold count. now apply Permutation_count_occ.
Qed.

(** X2. The two counting rules look at how often each character occurs and
    at nothing else: rearranging the characters of a password changes
    neither [has_excessive_repetition] nor [has_ambiguous_characters]. *)
Theorem counting_rules_permutation (p q : str) :
  p ≡ₚ q ->
  has_excessive_repetition p = has_excessive_repetition q /\
  has_ambiguous_characters p = has_ambiguous_characters q.
Proof.
  intros Hperm.
  assert (Hlen : length p = length q) by now apply Permutation_length.
  split.
  - apply eq_true_iff_eq. rewrite !has_excessive_repetition_iff, Hlen.
    split; intros (c & Hc); exists c.
    + now rewrite <- (count_Permutation p q c Hperm).
    + now rewrite (count_Permutation p q c Hperm).
  - assert (Hmap : forall group, map (count p) group = map (count q) group).
    { intros group. apply map_ext. intros c. now apply count_Permutation. }
    unfold has_ambiguous_characters, half_len, ambiguous_groups.
    cbn [existsb]. now rewrite Hlen, !Hmap.
Qed.

Lemma counting_rules_permutation_witness :
  has_excessive_repetition (lit "aaaaaB1!")
  = has_excessive_repetition (lit "!1Baaaaa") /\
  has_ambiguous_characters (lit "aaaaaB1!")
  = has_ambiguous_characters (lit "!1Baaaaa").
Proof.
  apply (counting_rules_permutation (lit "aaaaaB1!") (lit "!1Baaaaa")).
  exact (Permutation_rev (lit "aaaaaB1!")).
Defined.

(** The keyboard rule does look at the order. *)
Example keyboard_rule_not_permutation :
  @has_keyboard_pattern latin1 (lit "qwerty") = true /\
  @has_keyboard_pattern latin1 (lit "ytrewq") = false.
Proof. split; vm_compute; reflexivity. Qed.

(** X3. A password that repeats one character and has no other, whatever
    its length from 1 on, is flagged by [has_excessive_repetition]; the
    empty password is not. *)
Theorem single_character_flagged (c : codepoint) (n : nat) :
  has_excessive_repetition (replicate (S n) c) = true /\
  has_excessive_repetition [] = false.
Proof.
  split; [|reflexivity].
  apply has_excessive_repetition_iff. exists c.
  assert (Hcount : forall k, count (replicate k c) c = k).
  { unfold count. induction k as [|k IH]; simpl; [reflexivity|].
    destruct (N.eq_dec c c); [now rewrite IH | congruence]. }
  rewrite Hcount, length_replicate.
  apply Nat.div_lt; lia.
Qed.

Section NeverDecides.
Context {U : Unicode}.

Lemma common_password_no_uppercase (p : str) :
  p ∈ COMMON_PASSWORDS -> has_uppercase p = false.
Proof.
  unfold COMMON_PASSWORDS. rewrite !elem_of_union, !elem_of_singleton.
  intros [[[[[->| ->]| ->]| ->]| ->]| ->]; reflexivity.
Qed.

(** X4. Two of the eleven tests of [is_valid_password] never decide: a
    common password has no capital letter and fails the uppercase test
    anyway, and a password that has passed the character tests always looks
    human-like. The result is that of the other nine tests. *)
Theorem nine_tests_decide (p : str) :
  is_valid_password p =
  long_enough p && no_whitespace p && has_uppercase p && has_lowercase p &&
  has_digit p && has_special p && no_repetition p &&
  no_keyboard_pattern p && no_ambiguous_group p.
Proof.
  rewrite is_valid_password_ten_rules.
  destruct (not_common p) eqn:Hcommon; [reflexivity|].
  unfold not_common in Hcommon.
  apply negb_false_iff, bool_decide_eq_true in Hcommon.
  rewrite (common_password_no_uppercase p Hcommon).
  now rewrite !andb_false_r.
Qed.

End NeverDecides.

(** ** Passwords of ASCII characters *)

Lemma map_agree {A B} (f g : A -> B) (l : list A) :
  Forall (fun x => f x = g x) l -> map f l = map g l.
Proof.
  induction 1 as [|x l Hx _ IH]; simpl; [reflexivity|]. now rewrite Hx, IH.
Qed.

Lemma latin1_ascii_block : AsciiBlock latin1.
Proof.
  split.
  - exact latin1_laws.
  - intros c Hc. apply eq_true_iff_eq. revert Hc. unfold is_ascii.
    cbn [isspace latin1].
    rewrite !in_ranges_spec, !Exists_cons, !Exists_nil. cbn [fst snd]. lia.
  - intros s Hs. cbn [lower latin1]. apply map_agree.
    eapply Forall_impl; [exact Hs|]. intros c Hc. unfold ascii_lower.
    now rewrite <- (ascii_isupper latin1 latin1_laws c Hc).
Qed.

Section AsciiPasswords.
Context {U1 U2 : Unicode} (H1 : AsciiBlock U1) (H2 : AsciiBlock U2).
Context (p : str) (Hp : Forall is_ascii p).

Lemma class_agree (f g ref : codepoint -> bool) :
  (forall c, is_ascii c -> f c = ref c) ->
  (forall c, is_ascii c -> g c = ref c) ->
  existsb f p = existsb g p.
Proof.
  intros Hf Hg. apply existsb_agree.
  eapply Forall_impl; [exact Hp|]. intros c Hc.
  now rewrite (Hf c Hc), (Hg c Hc).
Qed.

Lemma isspace_agree : existsb (@isspace U1) p = existsb (@isspace U2) p.
Proof.
  eapply class_agree; [apply (ascii_isspace U1 H1) | apply (ascii_isspace U2 H2)].
Qed.

Lemma isdecimal_agree : existsb (@isdecimal U1) p = existsb (@isdecimal U2) p.
Proof.
  eapply class_agree;
    [apply (ascii_isdecimal U1 (block_classes U1 H1))
    |apply (ascii_isdecimal U2 (block_classes U2 H2))].
Qed.

Lemma isupper_agree : existsb (@isupper U1) p = existsb (@isupper U2) p.
Proof.
  eapply class_agree;
    [apply (ascii_isupper U1 (block_classes U1 H1))
    |apply (ascii_isupper U2 (block_classes U2 H2))].
Qed.

Lemma islower_agree : existsb (@islower U1) p = existsb (@islower U2) p.
Proof.
  eapply class_agree;
    [apply (ascii_islower U1 (block_classes U1 H1))
    |apply (ascii_islower U2 (block_classes U2 H2))].
Qed.

Lemma isdigit_agree : existsb (@isdigit U1) p = existsb (@isdigit U2) p.
Proof.
  eapply class_agree;
    [apply (ascii_isdigit U1 (block_classes U1 H1))
    |apply (ascii_isdigit U2 (block_classes U2 H2))].
Qed.

Lemma lower_agree : @lower U1 p = @lower U2 p.
Proof.
  now rewrite (ascii_lower_charwise U1 H1 p Hp),
    (ascii_lower_charwise U2 H2 p Hp).
Qed.

Lemma valid_agree : @is_valid_password U1 p = @is_valid_password U2 p.
Proof.
  unfold is_valid_password, looks_human_like, has_keyboard_pattern.
  rewrite !truthy_re_search, isspace_agree, isdecimal_agree, lower_agree.
  reflexivity.
Qed.

Lemma checks_agree : @checks U1 p = @checks U2 p.
Proof.
  unfold checks, requirements. cbn [map].
  now rewrite isupper_agree, islower_agree, isdigit_agree, isspace_agree.
Qed.

(** X5. On a password of ASCII characters the validator and the checklist
    do not depend on the rest of the Unicode database: two databases with
    the same ASCII block give the same decision, the same seven marks and
    the same score. *)
Theorem ascii_password_database_independent :
  @is_valid_password U1 p = @is_valid_password U2 p /\
  @checks U1 p = @checks U2 p /\
  @score U1 p = @score U2 p.
Proof.
  split; [exact valid_agree|]. split; [exact checks_agree|].
  now rewrite !score_checks, checks_agree.
Qed.

End AsciiPasswords.

Lemma ascii_only_ascii_block : AsciiBlock ascii_only.
Proof.
  split; [split|..]; try reflexivity. intros c Hc. exact Hc.
Qed.

Lemma ascii_password_database_independent_witness :
  @is_valid_password latin1 (lit "StrongPass1!")
  = @is_valid_password ascii_only (lit "StrongPass1!").
Proof.
  apply (@ascii_password_database_independent latin1 ascii_only
           latin1_ascii_block ascii_only_ascii_block (lit "StrongPass1!")).
  unfold is_ascii. repeat constructor.
Defined.

(** Outside ASCII the database matters: the non-breaking space U+00A0 is
    whitespace for the one and unknown to the other. *)
Example database_matters_outside_ascii :
  @is_valid_password latin1 (lit "StrongPass1!" ++ [160%N]) = false /\
  @is_valid_password ascii_only (lit "StrongPass1!" ++ [160%N]) = true.
Proof. split; vm_compute; reflexivity. Qed.

Section AsciiScript.
Context {U : Unicode} (HU : AsciiBlock U).

Lemma valid_as_latin1 (p : str) :
  Forall is_ascii p -> is_valid_password p = @is_valid_password latin1 p.
Proof. intros Hp. now apply valid_agree; [|apply latin1_ascii_block|]. Qed.

Ltac on_latin1 :=
  rewrite valid_as_latin1; [reflexivity | unfold is_ascii; repeat constructor].

(** X6. The script's own test passes, whatever the Unicode database: every
    password of its first list is accepted and every password of its second
    list is rejected, so each printed line shows the expected value as the
    result; these lines, under their two headings, are what the script
    writes before the prompt loop starts. *)
Theorem self_test_passes :
  Forall (fun pwd => is_valid_password pwd = true) accepted_passwords /\
  Forall (fun pwd => is_valid_password pwd = false) rejected_passwords /\
  check_passwords_from_list accepted_passwords true
  = map (fun pwd => report_line pwd true true) accepted_passwords /\
  check_passwords_from_list rejected_passwords false
  = map (fun pwd => report_line pwd false false) rejected_passwords /\
  (forall stdin,
      fst (main stdin)
      = lit "Checking accepted passwords:" ::
          map (fun pwd => report_line pwd true true) accepted_passwords ++
        ([newline] ++ lit "Checking rejected passwords:") ::
          map (fun pwd => report_line pwd false false) rejected_passwords ++
        fst (main_loop stdin)).
Proof.
  assert (Hacc : Forall (fun pwd => is_valid_password pwd = true)
                        accepted_passwords).
  { unfold accepted_passwords. cbn [map].
    repeat (apply Forall_cons; split; [on_latin1|]). apply Forall_nil_2. }
  assert (Hrej : Forall (fun pwd => is_valid_password pwd = false)
                        rejected_passwords).
  { unfold rejected_passwords. cbn [map].
    repeat (apply Forall_cons; split; [on_latin1|]). apply Forall_nil_2. }
  assert (Hfirst : check_passwords_from_list accepted_passwords true
                   = map (fun pwd => report_line pwd true true)
                         accepted_passwords).
  { unfold check_passwords_from_list. apply map_agree.
    eapply Forall_impl; [exact Hacc|]. intros pwd Hpwd. cbv zeta.
    now rewrite Hpwd. }
  assert (Hsecond : check_passwords_from_list rejected_passwords false
                    = map (fun pwd => report_line pwd false false)
                          rejected_passwords).
  { unfold check_passwords_from_list. apply map_agree.
    eapply Forall_impl; [exact Hrej|]. intros pwd Hpwd. cbv zeta.
    now rewrite Hpwd. }
  split; [exact Hacc|]. split; [exact Hrej|].
  split; [exact Hfirst|]. split; [exact Hsecond|].
  intros stdin. unfold main. destruct (main_loop stdin) as [out status].
  cbn [fst]. now rewrite Hfirst, Hsecond.
Qed.

End AsciiScript.

Lemma self_test_passes_witness :
  Forall (fun pwd => @is_valid_password latin1 pwd = true) accepted_passwords.
Proof.
  apply (@self_test_passes latin1 latin1_ascii_block).
Defined.

(** ** The keyboard rule on ASCII passwords *)

Section KeyboardPattern.
Context {U : Unicode} (HU : AsciiBlock U).

(** X7. On a password of ASCII characters [has_keyboard_pattern] holds
    exactly when the password contains one of the five patterns as a
    contiguous piece written in any mix of capital and small letters; such
    a password is rejected. *)
Theorem keyboard_pattern_any_case (p : str) :
  Forall is_ascii p ->
  (has_keyboard_pattern p = true <->
   exists pat pre piece suf,
     pat ∈ patterns /\ p = pre ++ piece ++ suf /\
     map ascii_lower piece = pat) /\
  (has_keyboard_pattern p = true -> is_valid_password p = false).
Proof.
  intros Hp. split.
  - unfold has_keyboard_pattern.
    rewrite existsb_elem, (ascii_lower_charwise U HU p Hp). split.
    + intros (pat & Hpat & Hocc).
      apply contains_spec in Hocc as (pre' & suf' & Hocc).
      apply map_eq_app in Hocc as (pre & rest & -> & Hpre & Hrest).
      apply map_eq_app in Hrest as (piece & suf & -> & Hpiece & Hsuf).
      exists pat, pre, piece, suf. auto.
    + intros (pat & pre & piece & suf & Hpat & -> & Hpiece).
      exists pat. split; [assumption|]. apply contains_spec.
      exists (map ascii_lower pre), (map ascii_lower suf).
      now rewrite !map_app, Hpiece.
  - intros Hkey. rewrite is_valid_password_andb.
    unfold no_keyboard_pattern. rewrite Hkey. cbn [negb].
    now rewrite andb_false_r.
Qed.

End KeyboardPattern.

Lemma keyboard_pattern_any_case_witness :
  @is_valid_password latin1 (lit "MyPassWord1!") = false.
Proof.
  apply (@keyboard_pattern_any_case latin1 latin1_ascii_block
           (lit "MyPassWord1!")).
  - unfold is_ascii. repeat constructor.
  - reflexivity.
Defined.

(** ** The report of [check_passwords_from_list] *)

Lemma length_ljust (w : nat) (s : str) :
  length (ljust w s) = Nat.max w (length s).
Proof. unfold ljust. rewrite length_app, length_replicate. lia. Qed.

Lemma ljust_prefix (w : nat) (s : str) : take (length s) (ljust w s) = s.
Proof. unfold ljust. apply take_app_length. Qed.

Section Report.
Context {U : Unicode}.

(** X8. [check_passwords_from_list] prints one line per password, in the
    order of the list; the line starts with the whole password, never cut.
    For a password of at most 16 characters the columns are aligned: the
    password fills the first 16 characters, the result starts at character
    18 and the expected value at character 25. *)
Theorem report_columns (passwords : list str) (expected_result : bool) :
  Forall2
    (fun pwd line =>
       take (length pwd) line = pwd /\
       (length pwd <= 16 ->
        take 16 line = ljust 16 pwd /\
        drop 18 line
        = ljust 5 (str_of_bool (is_valid_password pwd)) ++
          lit "  (Expected: " ++ str_of_bool expected_result ++ lit ")" /\
        take 5 (drop 18 line) = ljust 5 (str_of_bool (is_valid_password pwd)) /\
        drop 25 line
        = lit "(Expected: " ++ str_of_bool expected_result ++ lit ")"))
    passwords (check_passwords_from_list passwords expected_result).
Proof.
  unfold check_passwords_from_list.
  induction passwords as [|pwd passwords IH]; cbn [map]; constructor;
    [|exact IH].
  cbv zeta. unfold report_line. split.
  - rewrite take_app_le by (rewrite length_ljust; lia). apply ljust_prefix.
  - intros Hshort.
    assert (Hwidth : length (ljust 16 pwd) = 16)
      by (rewrite length_ljust; lia).
    assert (Hresult : length (ljust 5 (str_of_bool (is_valid_password pwd))) = 5)
      by (destruct (is_valid_password pwd); reflexivity).
    set (result := ljust 5 (str_of_bool (is_valid_password pwd))) in *.
    assert (Hdrop : drop 18 (ljust 16 pwd ++ lit "  " ++ result ++
                               lit "  (Expected: " ++
                               str_of_bool expected_result ++ lit ")")
                    = result ++ lit "  (Expected: " ++
                      str_of_bool expected_result ++ lit ")").
    { rewrite (app_assoc (ljust 16 pwd)).
      apply drop_app_length'. rewrite length_app, Hwidth. reflexivity. }
    split; [|split; [|split]].
    + now apply take_app_length'.
    + exact Hdrop.
    + rewrite Hdrop. now apply take_app_length'.
    + change 25 with (18 + 7). rewrite <- drop_drop, Hdrop.
      rewrite (app_assoc result).
      change (lit "  (Expected: ") with (lit "  " ++ lit "(Expected: ").
      rewrite (app_assoc result), <- !app_assoc.
      rewrite (app_assoc result).
      apply drop_app_length'. rewrite length_app, Hresult. reflexivity.
Qed.

End Report.

Lemma report_columns_witness :
  take 5 (drop 18 (report_line (lit "StrongPass1!") true true))
  = lit "True ".
Proof.
  pose proof (@report_columns latin1 [lit "StrongPass1!"] true) as Hrep.
  apply Forall2_cons_1 in Hrep as [[_ Hcols] _].
  apply Hcols. vm_compute. lia.
Defined.

(** ** The prompt loop *)

Section PromptLoop.
Context {U : Unicode}.

(** X9. The prompt loop answers every line with True or False until the
    first line whose lowercase form is the word exit; there it prints the
    farewell and stops, and what follows in the input is not read. When no
    line is the exit word the loop answers all of them and ends with
    [EOFError] at the next prompt. *)
Theorem main_loop_stops_at_exit (before after : list str) (word : str) :
  Forall (fun line => lower line <> lit "exit") before ->
  (lower word = lit "exit" ->
   main_loop (before ++ word :: after)
   = (flat_map (fun line => [PROMPT; str_of_bool (is_valid_password line)])
               before
      ++ [PROMPT; lit "Exiting password validator."],
      Finished)) /\
  main_loop before
  = (flat_map (fun line => [PROMPT; str_of_bool (is_valid_password line)])
              before
     ++ [PROMPT],
     EOFError).
Proof.
  induction 1 as [|line before Hline _ IH].
  - split; [|reflexivity]. intros Hword. cbn [app main_loop flat_map].
    now rewrite bool_decide_eq_true_2.
  - destruct IH as [IHexit IHeof]. split.
    + intros Hword. cbn [app main_loop flat_map].
      rewrite bool_decide_eq_false_2 by exact Hline.
      now rewrite (IHexit Hword).
    + cbn [app main_loop flat_map].
      rewrite bool_decide_eq_false_2 by exact Hline.
      now rewrite IHeof.
Qed.

End PromptLoop.

Lemma main_loop_stops_at_exit_witness :
  @main_loop latin1 [lit "StrongPass1!"; lit "EXIT"; lit "Valid$Pass2"]
  = ([@PROMPT; lit "True"; @PROMPT; lit "Exiting password validator."],
     Finished).
Proof.
  apply (@main_loop_stops_at_exit latin1
           [lit "StrongPass1!"] [lit "Valid$Pass2"] (lit "EXIT")).
  - repeat constructor. vm_compute. discriminate.
  - reflexivity.
Defined.

(** ** The Validate button *)

Section ValidateButton.
Context {U : Unicode}.

(** X10. [validate_password] warns exactly on the empty entry, shows
    Accepted exactly when [is_valid_password] accepts the entry and Rejected
    on every other entry; the password shown is the one that was tested.
    The guard for the empty entry hides no acceptable password. *)
Theorem validate_password_outcomes (p : str) :
  (validate_password p = InputError <-> p = []) /\
  (validate_password p = Accepted p <-> is_valid_password p = true) /\
  (validate_password p = Rejected p <->
   p <> [] /\ is_valid_password p = false) /\
  (forall q, validate_password p = Accepted q \/
             validate_password p = Rejected q -> q = p).
Proof.
  assert (Hempty : is_valid_password [] = false) by reflexivity.
  unfold validate_password. destruct p as [|c p].
  - split; [split; reflexivity|].
    split; [split; [discriminate | rewrite Hempty; discriminate]|].
    split; [split; [discriminate | intros [Hne _]; congruence]|].
    intros q [Hq|Hq]; discriminate.
  - destruct (is_valid_password (c :: p)).
    + split; [split; discriminate|].
      split; [split; reflexivity|].
      split; [split; [discriminate | intros [_ Hno]; discriminate]|].
      intros q [Hq|Hq]; congruence.
    + split; [split; discriminate|].
      split; [split; discriminate|].
      split; [split; [split; [discriminate | reflexivity] | reflexivity]|].
      intros q [Hq|Hq]; congruence.
Qed.

End ValidateButton.

(** ** The strength meter on common and on ASCII passwords *)

Section Meter.
Context {U : Unicode}.

Lemma checks_baseline_ascii (HU : UnicodeLaws U) (p : str) :
  Forall is_ascii p -> checks p = baseline_checks p.
Proof.
  intros Hascii. rewrite checks_entries.
  unfold baseline_checks, has_uppercase, has_lowercase, has_digit.
  rewrite !truthy_re_search.
  rewrite (existsb_agree isupper class_upper p),
    (existsb_agree islower class_lower p),
    (existsb_agree isdigit isdecimal p); [reflexivity | | |];
    (eapply Forall_impl; [exact Hascii|]); intros c Hc.
  - rewrite (ascii_isdigit U HU), (ascii_isdecimal U HU); auto.
  - now apply (ascii_islower U HU).
  - now apply (ascii_isupper U HU).
Qed.

Lemma score_7_all_checks (p : str) :
  score p = 7 <-> checks p = [true; true; true; true; true; true; true].
Proof.
  rewrite score_checks, checks_entries. cbn [map]. unfold list_sum.
  cbn [fold_right].
  destruct (long_enough p), (existsb isupper p), (existsb islower p),
    (existsb isdigit p), (has_special p), (no_whitespace p), (not_common p);
    cbn [Nat.b2n]; split; intros Heq; try reflexivity; try discriminate; lia.
Qed.

(** X11. For a password of ASCII characters, acceptance is a full
    checklist and the three tests that the checklist does not show:
    [is_valid_password] accepts exactly when the score is 7 and the
    password has no excessive repetition, no keyboard pattern and no
    dominant ambiguous group. *)
Theorem ascii_accepted_iff_full_checklist (HU : UnicodeLaws U) (p : str) :
  Forall is_ascii p ->
  (is_valid_password p = true <->
   score p = 7 /\ has_excessive_repetition p = false /\
   has_keyboard_pattern p = false /\ has_ambiguous_characters p = false).
Proof.
  intros Hascii.
  rewrite score_7_all_checks, (checks_baseline_ascii HU p Hascii).
  rewrite is_valid_password_ten_rules, !andb_true_iff.
  unfold baseline_checks, no_repetition, no_keyboard_pattern,
    no_ambiguous_group.
  rewrite !negb_true_iff. split.
  - intros [[[[[[[[[-> ->] ->] ->] ->] ->] ->] ->] ->] ->]. auto.
  - intros (Hall & -> & -> & ->).
    injection Hall as -> -> -> -> -> -> ->. auto 20.
Qed.

End Meter.

Lemma ascii_accepted_iff_full_checklist_witness :
  @score latin1 (lit "StrongPass1!") = 7 /\
  has_excessive_repetition (lit "StrongPass1!") = false /\
  @has_keyboard_pattern latin1 (lit "StrongPass1!") = false /\
  has_ambiguous_characters (lit "StrongPass1!") = false.
Proof.
  apply (@ascii_accepted_iff_full_checklist latin1 latin1_laws
           (lit "StrongPass1!")).
  - unfold is_ascii. repeat constructor.
  - reflexivity.
Defined.

Section CommonPasswords.
Context {U : Unicode} (HU : AsciiBlock U).

Lemma common_password_cases (p : str) :
  p ∈ COMMON_PASSWORDS ->
  p = lit "password" \/ p = lit "123456" \/ p = lit "qwerty" \/
  p = lit "letmein" \/ p = lit "admin" \/ p = lit "iloveyou".
Proof.
  unfold COMMON_PASSWORDS. rewrite !elem_of_union, !elem_of_singleton. tauto.
Qed.

Lemma score_as_latin1 (p : str) :
  Forall is_ascii p -> score p = @score latin1 p.
Proof.
  intros Hp.
  now rewrite !score_checks, (checks_agree HU latin1_ascii_block p Hp).
Qed.

Ltac score_on_latin1 :=
  rewrite score_as_latin1 by (unfold is_ascii; repeat constructor).

(** X12. Every password of [COMMON_PASSWORDS] is rejected, and the
    strength meter shows it as Weak: its score is 2 or 3. *)
Theorem common_password_weak (p : str) :
  p ∈ COMMON_PASSWORDS ->
  is_valid_password p = false /\
  2 <= score p <= 3 /\
  strength_var (on_password_change p) = "Password strength: Weak"%string.
Proof.
  intros Hcommon.
  assert (Hscore : 2 <= score p <= 3).
  { apply common_password_cases in Hcommon
      as [->|[->|[->|[->|[->| ->]]]]]; score_on_latin1; vm_compute; lia. }
  split; [|split; [exact Hscore|]].
  - unfold is_valid_password. now rewrite bool_decide_eq_true_2.
  - rewrite strength_var_label. unfold strength.
    destruct (Nat.leb_spec (score p) 3); [reflexivity | lia].
Qed.

(** X13. After a key release the strength bar is never empty and never
    fills its canvas: at least one requirement is met by every password, so
    the bar is between 37 and 259 pixels wide, on a canvas of 260. *)
Theorem strength_bar_bounds (p : str) :
  1 <= score p <= 7 /\
  37 <= fst (strength_bar (on_password_change p)) <= 259 /\
  fst (strength_bar (on_password_change p)) < strength_bar_canvas_width.
Proof.
  assert (Hscore : 1 <= score p <= 7).
  { split; [|apply score_le_7].
    destruct (decide (p ∈ COMMON_PASSWORDS)) as [Hcommon|Hfresh].
    - apply common_password_cases in Hcommon
        as [->|[->|[->|[->|[->| ->]]]]]; score_on_latin1; vm_compute; lia.
    - rewrite score_checks, checks_entries. unfold not_common.
      rewrite bool_decide_eq_false_2 by exact Hfresh.
      cbn [map negb]. unfold list_sum. cbn [fold_right Nat.b2n]. lia. }
  rewrite strength_bar_width. unfold strength_bar_canvas_width. lia.
Qed.

End CommonPasswords.

Lemma common_password_weak_witness :
  @strength_var (@on_password_change latin1 (lit "iloveyou"))
  = "Password strength: Weak"%string.
Proof.
  apply (@common_password_weak latin1 latin1_ascii_block (lit "iloveyou")).
  vm_compute. reflexivity.
Defined.

Lemma strength_bar_bounds_witness :
  fst (strength_bar (@on_password_change latin1 (lit "StrongPass1!")))
  < strength_bar_canvas_width.
Proof.
  apply (@strength_bar_bounds latin1 latin1_ascii_block (lit "StrongPass1!")).
Defined.

(** ** The window *)

Section Window.
Context {U : Unicode}.

(** X14. [clear_fields] and [on_password_change] disagree about the empty
    entry. After Clear no requirement is marked as met, the bar is empty
    and there is no strength text; a key release on the entry that Clear
    has just emptied marks the last two requirements (no whitespace, not a
    common password) as met, draws a bar of 74 pixels and shows Weak. *)
Theorem clear_then_key_release (self : PasswordValidatorGUI) :
  let cleared := clear_fields self in
  let redrawn := on_password_change_method cleared in
  pwd_entry cleared = [] /\ pwd_entry redrawn = [] /\
  map fst (labels cleared)
  = [false; false; false; false; false; false; false] /\
  map fst (labels redrawn)
  = [false; false; false; false; false; true; true] /\
  bar_items cleared = [] /\
  bar_items redrawn = [(74, "#d32f2f"%string)] /\
  strength_text cleared = ""%string /\
  strength_text redrawn = "Password strength: Weak"%string.
Proof. repeat split. Qed.

Lemma req_labels_texts (p : str) :
  map snd (req_labels (on_password_change p)) = map fst requirements.
Proof.
  unfold on_password_change. destruct (strength (score p)). reflexivity.
Qed.

Lemma init_invariant : window_invariant init.
Proof.
  split; [reflexivity|]. split; [now left|]. split; [reflexivity|].
  intros verdict password Hshown. discriminate.
Qed.

Lemma handle_invariant (self : PasswordValidatorGUI) (e : event) :
  window_invariant self -> window_invariant (handle self e).
Proof.
  intros (Hlabels & Hbar & Hshow & Hresult).
  pose proof (conj Hlabels (conj Hbar (conj Hshow Hresult))) as Hself.
  destruct e; cbn [handle]; try exact Hself.
  - (* a key release *)
    split; [apply req_labels_texts|]. split; [|split; [exact Hshow|]].
    + right. cbn [bar_items on_password_change_method].
      destruct (strength_bar (on_password_change (pwd_entry self)))
        as [width color] eqn:Hrect.
      exists width, color. split; [reflexivity|].
      pose proof (strength_bar_width (pwd_entry self)) as Hwidth.
      rewrite Hrect in Hwidth. cbn [fst] in Hwidth.
      pose proof (score_le_7 (pwd_entry self)).
      unfold strength_bar_canvas_width. lia.
    + intros verdict password Hshown. discriminate.
  - (* the Show box *)
    split; [exact Hlabels|]. split; [exact Hbar|]. split; [|exact Hresult].
    cbn. reflexivity.
  - (* the Validate button *)
    unfold validate_password_method, validate_password.
    destruct (pwd_entry self) as [|c p] eqn:Hentry; [exact Hself|].
    destruct (is_valid_password (c :: p)) eqn:Hvalid; cbn [fst];
      refine (conj Hlabels (conj Hbar (conj Hshow _)));
      intros verdict password Hshown; cbn in Hshown;
      injection Hshown as <- <-;
      (split; [discriminate | now rewrite Hvalid]).
  - (* the Clear button *)
    split; [|split; [now left|split; [exact Hshow|]]].
    + cbn [labels clear_fields]. rewrite !map_map. apply map_ext.
      now intros [text check].
    + intros verdict password Hshown. discriminate.
Qed.

(** X15. Whatever the user does, the window keeps its shape: the seven
    labels carry the texts of the requirements, in order; the canvas holds
    no rectangle or one, narrower than the canvas (the old bar is deleted
    before the new one is drawn); the entry is masked exactly when the Show
    box is not ticked; and a verdict on the screen is the verdict of
    [is_valid_password] on the password shown with it, which is never the
    empty one. *)
Theorem run_invariant (events : list event) : window_invariant (run events).
Proof.
  unfold run. generalize init_invariant. generalize init.
  induction events as [|e events IH]; intros self Hself; [exact Hself|].
  cbn [fold_left]. apply IH. now apply handle_invariant.
Qed.

End Window.

(** A verdict can outlive the password it was given for: the entry may
    change without a key being released. *)
Example verdict_can_be_stale :
  let self := @run latin1 [Edit (lit "StrongPass1!"); ClickValidate;
                           Edit (lit "weak")] in
  result self = Some (true, lit "StrongPass1!") /\
  pwd_entry self = lit "weak".
Proof. split; vm_compute; reflexivity. Qed.

(** ** Human-like composition, exactly *)

Lemma existsb_orb {A} (f g : A -> bool) (l : list A) :
  existsb (fun x => f x || g x) l = existsb f l || existsb g l.
Proof.
  induction l as [|x l IH]; simpl; [reflexivity|]. rewrite IH.
  destruct (f x), (g x), (existsb f l), (existsb g l); reflexivity.
Qed.

Section HumanLikeExactly.
Context {U : Unicode}.

(** X16. [looks_human_like] is the digit test and the special character
    test of [is_valid_password] together with one of its two letter tests:
    it asks for an ASCII letter of either case, a decimal digit and a
    special character, and for nothing else (no length, no mix of cases). *)
Theorem looks_human_like_exactly (p : str) :
  looks_human_like p
  = (has_uppercase p || has_lowercase p) && has_digit p && has_special p.
Proof.
  unfold looks_human_like, has_uppercase, has_lowercase, has_digit,
    has_special. cbv zeta. rewrite !truthy_re_search.
  unfold class_letter, class_upper, class_lower.
  now rewrite existsb_orb.
Qed.

End HumanLikeExactly.

(** ** The rule set in words against the validator *)

Lemma class_letter_spec (c : codepoint) :
  class_letter c = true <->
  (ord "A" <= c <= ord "Z")%N \/ (ord "a" <= c <= ord "z")%N.
Proof.
  unfold class_letter. rewrite orb_true_iff, !in_range_spec. reflexivity.
Qed.

Lemma exists_class (P Q : codepoint -> Prop) (p : str) :
  (forall c, P c <-> Q c) ->
  (exists c, c ∈ p /\ P c) <-> (exists c, c ∈ p /\ Q c).
Proof.
  intros HPQ. split; intros (c & Hc & Hclass); exists c; split; auto;
    now apply HPQ.
Qed.

Section RuleSetFacts.
Context {U : Unicode}.

(** Eight of the eleven rules are tests of the validator whatever a letter
    is taken to be. *)
Lemma rule_set_tests (uppercase lowercase letter : codepoint -> Prop)
    (p : str) :
  rule_set uppercase lowercase letter p <->
  not_common p = true /\ long_enough p = true /\ no_whitespace p = true /\
  (exists c, c ∈ p /\ uppercase c) /\ (exists c, c ∈ p /\ lowercase c) /\
  has_digit p = true /\ has_special p = true /\ no_repetition p = true /\
  no_keyboard_pattern p = true /\ no_ambiguous_group p = true /\
  ((exists c, c ∈ p /\ letter c) /\
   has_digit p = true /\ has_special p = true).
Proof.
  unfold rule_set.
  rewrite not_common_spec, long_enough_spec, no_whitespace_spec,
    has_digit_spec, has_special_spec, no_repetition_spec,
    no_keyboard_pattern_spec, no_ambiguous_group_spec.
  reflexivity.
Qed.

(** C1, as the code has it. [is_valid_password] accepts a password exactly
    when the eleven rules hold of it with a letter read as an ASCII letter:
    the uppercase rule asks for one of A to Z, the lowercase rule for one
    of a to z, the human-like rule for either; whitespace and decimal digit
    are those of the Unicode classification. *)
Theorem is_valid_password_iff_rules (p : str) :
  is_valid_password p = true <-> rules_ascii_letters p.
Proof.
  unfold rules_ascii_letters.
  rewrite rule_set_tests, is_valid_password_andb, !andb_true_iff.
  assert (Hupper : has_uppercase p = true <->
                   exists c, c ∈ p /\ (ord "A" <= c <= ord "Z")%N).
  { unfold has_uppercase, class_upper. rewrite re_search_true.
    apply exists_class. intros c. apply in_range_spec. }
  assert (Hhuman : human_like p = true <->
            (exists c, c ∈ p /\
               ((ord "A" <= c <= ord "Z")%N \/ (ord "a" <= c <= ord "z")%N)) /\
            has_digit p = true /\ has_special p = true).
  { unfold human_like.
    rewrite looks_human_like_spec, has_digit_spec, has_special_spec.
    rewrite (exists_class _ _ p class_letter_spec). reflexivity. }
  rewrite <- Hupper, <- has_lowercase_spec, <- Hhuman. tauto.
Qed.

End RuleSetFacts.

Ltac in_literal := apply list_elem_of_In; vm_compute; auto 20.

(** C1, as stated, fails. With the rules read as the classification of the
    language has them, all eleven hold of the password made of U+00C9 and
    abcdef1!, whose capital letter is not an ASCII one, and
    [is_valid_password] rejects it. *)
Lemma rules_as_classified_not_enough :
  ~ (@is_valid_password latin1 (E_acute :: lit "abcdef1!") = true <->
     @rules_as_classified latin1 (E_acute :: lit "abcdef1!")).
Proof.
  intros [_ Hback].
  assert (Hfalse : @is_valid_password latin1 (E_acute :: lit "abcdef1!")
                   = false) by (vm_compute; reflexivity).
  rewrite Hback in Hfalse; [discriminate|].
  apply rule_set_tests.
  split; [reflexivity|]. split; [reflexivity|]. split; [reflexivity|].
  split; [exists E_acute; split; [in_literal | reflexivity]|].
  split; [exists (ord "a"); split; [in_literal | reflexivity]|].
  split; [reflexivity|]. split; [reflexivity|]. split; [reflexivity|].
  split; [reflexivity|]. split; [reflexivity|].
  split; [|split; reflexivity].
  exists E_acute. split; [in_literal | left; reflexivity].
Qed.

(** ** The validator never raises on a string *)

Lemma for_any_returns {A} (test : A -> Py.outcome bool) (f : A -> bool)
    (l : list A) :
  (forall a, test a = Py.Return (f a)) ->
  Py.for_any test l = Py.Return (existsb f l).
Proof.
  intros Htest. induction l as [|a l IH]; cbn [Py.for_any existsb];
    [reflexivity|].
  rewrite Htest. cbn [Py.bind]. destruct (f a); [reflexivity | exact IH].
Qed.

Lemma sum_returns {A} (f : A -> Py.outcome nat) (g : A -> nat) (l : list A) :
  (forall a, f a = Py.Return (g a)) ->
  Py.sum f l = Py.Return (list_sum (map g l)).
Proof.
  intros Hf. induction l as [|a l IH]; cbn [Py.sum map]; [reflexivity|].
  rewrite Hf, IH. reflexivity.
Qed.

Lemma has_excessive_repetition_returns (s : str) :
  Py.has_excessive_repetition (Py.Str s)
  = Py.Return (has_excessive_repetition s).
Proof.
  unfold Py.has_excessive_repetition, has_excessive_repetition, half_len.
  cbn [Py.set Py.bind]. now apply for_any_returns.
Qed.

Lemma has_ambiguous_characters_returns (s : str) :
  Py.has_ambiguous_characters (Py.Str s)
  = Py.Return (has_ambiguous_characters s).
Proof.
  unfold Py.has_ambiguous_characters, has_ambiguous_characters, half_len.
  apply for_any_returns. intros group.
  now rewrite (sum_returns _ (count s) group).
Qed.

Section NeverRaises.
Context {U : Unicode}.

Lemma has_keyboard_pattern_returns (s : str) :
  Py.has_keyboard_pattern (Py.Str s) = Py.Return (has_keyboard_pattern s).
Proof.
  unfold Py.has_keyboard_pattern, has_keyboard_pattern.
  now apply for_any_returns.
Qed.

Lemma looks_human_like_returns (s : str) :
  Py.looks_human_like (Py.Str s) = Py.Return (looks_human_like s).
Proof. reflexivity. Qed.

(** C8. Every string, the empty one included, is a legal argument of
    [is_valid_password]: no operation of the function raises on it, and the
    call returns a boolean, the one that the validator computes. On the
    empty string the test for a common password does not fire, the length
    is 0, and the call returns False. *)
Theorem is_valid_password_never_raises :
  (forall s : str,
      Py.is_valid_password (Py.Str s) = Py.Return (is_valid_password s)) /\
  Py.is_valid_password (Py.Str []) = Py.Return false /\
  Py.in_COMMON_PASSWORDS (Py.Str []) = Py.Return false /\
  Py.len (Py.Str []) = Py.Return 0.
Proof.
  split; [|repeat split].
  intros s. unfold Py.is_valid_password, is_valid_password.
  rewrite has_excessive_repetition_returns, has_keyboard_pattern_returns,
    has_ambiguous_characters_returns, looks_human_like_returns.
  cbn [Py.in_COMMON_PASSWORDS Py.len Py.search Py.bind].
  repeat (match goal with
          | |- context [if ?b then _ else _] => destruct b
          end; cbn [Py.bind]; try reflexivity).
Qed.

(** On an object that is not a string the call does raise: the test for a
    common password lets [None] and an integer through, and [len] raises;
    so do the four helper functions, each in its first operation. *)
Example is_valid_password_raises :
  Py.is_valid_password Py.None = Py.Raise Py.TypeError /\
  Py.is_valid_password (Py.Int 12345678) = Py.Raise Py.TypeError /\
  Py.has_excessive_repetition Py.None = Py.Raise Py.TypeError /\
  Py.has_keyboard_pattern Py.None = Py.Raise Py.AttributeError /\
  Py.has_ambiguous_characters Py.None = Py.Raise Py.AttributeError /\
  Py.looks_human_like Py.None = Py.Raise Py.TypeError.
Proof. repeat split. Qed.

End NeverRaises.
